(** * WebScraper_Basel_Kristian.py: the listing scraper, embedded and verified

    The script drives a browser over the result pages of a rental site,
    parses every page with BeautifulSoup, pulls four text fields out of
    every listing container, accumulates the records in the global list
    [all_data] and finally writes them with pandas to a CSV file.

    The embedding keeps the script's shape:
    - Python values: a str is the [string] of its UTF-8 bytes, a record
      is a Python dict kept as an association list in insertion order,
      exceptions are values of [exn] with their class;
    - effects: a small monad [M] threads the script's globals and collects
      the observable events (console lines, sleeps, selector look-ups,
      driver calls, the file written); an exception keeps the state and
      the events produced before it, as in Python;
    - the libraries the script talks to (BeautifulSoup, the Selenium
      driver) are interfaces: a type class for the parser and a record of
      replies for the browser. Their calls may return or throw. *)

From Stdlib Require Import String Ascii List Arith Bool Lia.
From Stdlib Require Import DecimalString.
Import ListNotations.
Local Open Scope string_scope.
Local Open Scope list_scope.
Set Warnings "-register-all".

(* ================================================================== *)
(** ** Python strings *)

Module PyStr.

(** White space of one byte: U+0009 to U+000D, U+001C to U+001F and
    U+0020. *)
Definition is_ascii_space (a : ascii) : bool :=
  let n := nat_of_ascii a in
  (Nat.leb 9 n && Nat.leb n 13) || (Nat.leb 28 n && Nat.leb n 32).

(** White space of two bytes: U+0085 and U+00A0. *)
Definition is_space2 (a b : ascii) : bool :=
  let a := nat_of_ascii a in
  let b := nat_of_ascii b in
  Nat.eqb a 194 && (Nat.eqb b 133 || Nat.eqb b 160).

(** White space of three bytes: U+1680, U+2000 to U+200A, U+2028,
    U+2029, U+202F, U+205F and U+3000. *)
Definition is_space3 (a b c : ascii) : bool :=
  let a := nat_of_ascii a in
  let b := nat_of_ascii b in
  let c := nat_of_ascii c in
  (Nat.eqb a 225 && Nat.eqb b 154 && Nat.eqb c 128)
  || (Nat.eqb a 226 && Nat.eqb b 128
      && ((Nat.leb 128 c && Nat.leb c 138)
          || Nat.eqb c 168 || Nat.eqb c 169 || Nat.eqb c 175))
  || (Nat.eqb a 226 && Nat.eqb b 129 && Nat.eqb c 159)
  || (Nat.eqb a 227 && Nat.eqb b 128 && Nat.eqb c 128).

(** The number of bytes of the white-space character a string begins
    with; 0 if it begins with none. *)
Definition space_width (s : string) : nat :=
  match s with
  | EmptyString => 0
  | String a r =>
      if is_ascii_space a then 1
      else match r with
           | EmptyString => 0
           | String b r2 =>
               if is_space2 a b then 2
               else match r2 with
                    | EmptyString => 0
                    | String c _ => if is_space3 a b c then 3 else 0
                    end
           end
  end.

(** A string that is one white-space character. *)
Definition is_one_space (s : string) : bool :=
  match s with
  | String a EmptyString => is_ascii_space a
  | String a (String b EmptyString) => is_space2 a b
  | String a (String b (String c EmptyString)) => is_space3 a b c
  | _ => false
  end.

Fixpoint lstrip (s : string) : string :=
  match s with
  | EmptyString => EmptyString
  | String a r =>
      if is_ascii_space a then lstrip r
      else match r with
           | EmptyString => s
           | String b r2 =>
               if is_space2 a b then lstrip r2
               else match r2 with
                    | EmptyString => s
                    | String c r3 => if is_space3 a b c then lstrip r3 else s
                    end
           end
  end.

(** From the right: what is left of the tail, with the byte in front,
    is dropped when it is one white-space character. *)
Fixpoint rstrip (s : string) : string :=
  match s with
  | EmptyString => EmptyString
  | String a r =>
      let kept := String a (rstrip r) in
      if is_one_space kept then EmptyString else kept
  end.

(** [s.strip()] *)
Definition strip (s : string) : string := rstrip (lstrip s).

(** [str(n)] for a non-negative integer. *)
Definition of_nat (n : nat) : string := NilEmpty.string_of_uint (Nat.to_uint n).

(** The double-quote character, as a one-character string. *)
Definition dquote : string := String (ascii_of_nat 34) EmptyString.

(** [needle in s] *)
Fixpoint contains (needle s : string) : bool :=
  prefix needle s
  || match s with
     | EmptyString => false
     | String _ r => contains needle r
     end.

Fixpoint has_char (p : ascii -> bool) (s : string) : bool :=
  match s with
  | EmptyString => false
  | String c r => p c || has_char p r
  end.

(** [sep.join(parts)] *)
Fixpoint join (sep : string) (parts : list string) : string :=
  match parts with
  | [] => ""
  | [p] => p
  | p :: rest => p ++ sep ++ join sep rest
  end.

End PyStr.

(* ================================================================== *)
(** ** Exceptions

    Every value of [exn] is an instance of a subclass of Python's
    [Exception]; [except Exception] therefore catches all of them, and
    [except TimeoutException] those whose class descends from
    [TimeoutException]. *)

Inductive exn_class : Type :=
| Exception
| RuntimeError
| NotImplementedError
| AttributeError
| OSError
| WebDriverException
| TimeoutException
| NoSuchElementException
| StaleElementReferenceException
| ElementClickInterceptedException
| JavascriptException
| NoSuchWindowException
| ParserRejectedMarkup.

Definition superclass (c : exn_class) : option exn_class :=
  match c with
  | Exception => None
  | RuntimeError => Some Exception
  | NotImplementedError => Some RuntimeError
  | AttributeError => Some Exception
  | OSError => Some Exception
  | WebDriverException => Some Exception
  | TimeoutException => Some WebDriverException
  | NoSuchElementException => Some WebDriverException
  | StaleElementReferenceException => Some WebDriverException
  | ElementClickInterceptedException => Some WebDriverException
  | JavascriptException => Some WebDriverException
  | NoSuchWindowException => Some WebDriverException
  | ParserRejectedMarkup => Some Exception
  end.

Definition exn_class_eqb (c d : exn_class) : bool :=
  match c, d with
  | Exception, Exception
  | RuntimeError, RuntimeError
  | NotImplementedError, NotImplementedError
  | AttributeError, AttributeError
  | OSError, OSError
  | WebDriverException, WebDriverException
  | TimeoutException, TimeoutException
  | NoSuchElementException, NoSuchElementException
  | StaleElementReferenceException, StaleElementReferenceException
  | ElementClickInterceptedException, ElementClickInterceptedException
  | JavascriptException, JavascriptException
  | NoSuchWindowException, NoSuchWindowException
  | ParserRejectedMarkup, ParserRejectedMarkup => true
  | _, _ => false
  end.

(** [issubclass c d]; the hierarchy above is three levels deep. *)
Fixpoint issubclass_upto (depth : nat) (c d : exn_class) : bool :=
  exn_class_eqb c d
  || match depth, superclass c with
     | S k, Some p => issubclass_upto k p d
     | _, _ => false
     end.

Definition issubclass : exn_class -> exn_class -> bool := issubclass_upto 3.

Record exn : Type := mk_exn { exn_cls : exn_class; exn_msg : string }.

(** [isinstance e d] *)
Definition isinstance (e : exn) (d : exn_class) : bool := issubclass (exn_cls e) d.

(** What a call into a library does: it returns or it throws. *)
Inductive reply (A : Type) : Type :=
| Returns (a : A)
| Throws (e : exn).
Arguments Returns {A} a.
Arguments Throws {A} e.

(* ================================================================== *)
(** ** Observable events *)

Inductive driver_call : Type :=
| Chrome                                       (* webdriver.Chrome(...) *)
| Get (url : string)                           (* driver.get(url) *)
| MaximizeWindow                               (* driver.maximize_window() *)
| UntilClickable (locator : string) (timeout : nat)
| UntilPresent (locator : string) (timeout : nat)
| Click                                        (* element.click() *)
| PageSource                                   (* driver.page_source *)
| ExecuteScript (js : string)                  (* driver.execute_script(js) *)
| Quit.                                        (* driver.quit() *)

Inductive event : Type :=
| Print (line : string)                        (* print(...) *)
| Sleep (seconds : nat)                        (* time.sleep(n) *)
| Find (name class_ : string)                  (* listing.find(name, class_=...) *)
| SelectOne (selector : string)                (* listing.select_one(selector) *)
| Driver (c : driver_call)
| ToCsv (path : string) (content : string).    (* df.to_csv(path, index=True) *)

(* ================================================================== *)
(** ** The script's globals and its monad *)

(** A Python dict with string keys and values, in insertion order. *)
Definition dict : Type := list (string * string).

Fixpoint dict_get (d : dict) (k : string) : option string :=
  match d with
  | [] => None
  | (k', v) :: rest => if String.eqb k' k then Some v else dict_get rest k
  end.

Definition keys (d : dict) : list string := map fst d.

(** The module-level variable the functions share. *)
Record globals : Type := mk_globals { all_data : list dict }.

Inductive result (A : Type) : Type :=
| Ok (a : A)
| Raise (e : exn)
| OutOfFuel.
Arguments Ok {A} a.
Arguments Raise {A} e.
Arguments OutOfFuel {A}.

Definition M (A : Type) : Type := globals -> result A * globals * list event.

Definition ret {A} (a : A) : M A := fun g => (Ok a, g, []).

Definition bind {A B} (m : M A) (k : A -> M B) : M B :=
  fun g =>
    match m g with
    | (Ok a, g1, t1) => let '(r, g2, t2) := k a g1 in (r, g2, t1 ++ t2)
    | (Raise e, g1, t1) => (Raise e, g1, t1)
    | (OutOfFuel, g1, t1) => (OutOfFuel, g1, t1)
    end.

Declare Scope py_scope.
Delimit Scope py_scope with py.
Notation "x <- m ;; k" := (bind m (fun x => k))
  (at level 100, m at next level, right associativity) : py_scope.
Notation "m ;; k" := (bind m (fun _ => k))
  (at level 100, right associativity) : py_scope.
Local Open Scope py_scope.

Definition raise {A} (e : exn) : M A := fun g => (Raise e, g, []).

Definition emit (ev : event) : M unit := fun g => (Ok tt, g, [ev]).

(** A library call: it is observed, then it returns or throws. *)
Definition call {A} (ev : event) (r : reply A) : M A :=
  emit ev ;; match r with Returns a => ret a | Throws e => raise e end.

(** A library call that leaves nothing on the trace. *)
Definition answer {A} (r : reply A) : M A :=
  match r with Returns a => ret a | Throws e => raise e end.

Definition print (line : string) : M unit := emit (Print line).
Definition sleep (seconds : nat) : M unit := emit (Sleep seconds).

(** [try: body  except cls as e: handler e] *)
Definition try_except {A} (body : M A) (cls : exn_class) (handler : exn -> M A) : M A :=
  fun g =>
    match body g with
    | (Raise e, g1, t1) =>
        if isinstance e cls
        then let '(r, g2, t2) := handler e g1 in (r, g2, t1 ++ t2)
        else (Raise e, g1, t1)
    | other => other
    end.

(* ================================================================== *)
(** ** BeautifulSoup, as the script uses it *)

(** Every call may return or throw: the parser, which rejects some
    markup, and the container query, both outside any handler of the
    extractor, and [find] and [select_one], which its [try] guards. *)
Class BeautifulSoup : Type := {
  Soup : Type;
  Tag : Type;
  (** [BeautifulSoup(page_source, "html.parser")] *)
  html_parser : string -> reply Soup;
  (** [soup.select(selector)]: the matches in document order *)
  soup_select : Soup -> string -> reply (list Tag);
  (** [tag.find(name, class_=c)]: the first match or [None] *)
  tag_find : Tag -> string -> string -> reply (option Tag);
  (** [tag.select_one(selector)]: the first match or [None] *)
  tag_select_one : Tag -> string -> reply (option Tag);
  (** [tag.text] *)
  tag_text : Tag -> string
}.

Section Extractor.

Context {bs : BeautifulSoup}.

Definition find (t : Tag) (name class_ : string) : M (option Tag) :=
  call (Find name class_) (tag_find t name class_).

Definition select_one (t : Tag) (selector : string) : M (option Tag) :=
  call (SelectOne selector) (tag_select_one t selector).

(** Lines 100-134: the body of the [try] for one listing. The test
    [if rooms:] is on a tag or [None], and a tag is always true. *)
Definition listing_record (listing : Tag) : M dict :=
  rooms <- find listing "strong"
             "HgListingRoomsLivingSpacePrice_roomsLivingSpacePrice_M6Ktp" ;;
  rooms <- match rooms with
           | Some rooms => ret (PyStr.strip (tag_text rooms))
           | None =>
               rooms <- select_one listing "div:contains('rooms') strong" ;;
               ret (match rooms with
                    | Some rooms => PyStr.strip (tag_text rooms)
                    | None => "N/A"
                    end)
           end ;;
  print ("Rooms: " ++ rooms) ;;
  size <- find listing "strong"
            "HgListingRoomsLivingSpacePrice_commaPrice_mXXpt" ;;
  size <- match size with
          | Some size => ret (PyStr.strip (tag_text size))
          | None =>
              size <- select_one listing "strong[title='living space']" ;;
              ret (match size with
                   | Some size => PyStr.strip (tag_text size)
                   | None => "N/A"
                   end)
          end ;;
  print ("Size: " ++ size) ;;
  price <- find listing "span" "HgListingRoomsLivingSpacePrice_price_u9Vee" ;;
  let price := match price with
               | Some price => PyStr.strip (tag_text price)
               | None => "N/A"
               end in
  print ("Price: " ++ price) ;;
  address <- find listing "div" "HgListingCard_address_JGiFv" ;;
  let address := match address with
                 | Some address => PyStr.strip (tag_text address)
                 | None => "N/A"
                 end in
  print ("Address: " ++ address) ;;
  ret [("Rooms", rooms); ("Size", size); ("Price", price); ("Address", address)].

(** Lines 98-136: the [for] loop, with the local list [scraped_data]. *)
Fixpoint for_listings (listings : list Tag) (scraped_data : list dict) : M (list dict) :=
  match listings with
  | [] => ret scraped_data
  | listing :: rest =>
      scraped_data <-
        try_except
          (d <- listing_record listing ;; ret (scraped_data ++ [d]))
          Exception
          (fun e => print ("Error extracting data: " ++ exn_msg e) ;;
                    ret scraped_data) ;;
      for_listings rest scraped_data
  end.

(** Lines 79-138. *)
Definition extract_listing_data (page_source : string) : M (list dict) :=
  soup <- answer (html_parser page_source) ;;
  listings <-
    answer (soup_select soup
              ("div[data-test=" ++ PyStr.dquote ++ "result-list-item"
               ++ PyStr.dquote ++ "]")) ;;
  print ("Found " ++ PyStr.of_nat (length listings) ++ " listings on the page.") ;;
  for_listings listings [].

End Extractor.

(* ================================================================== *)
(** ** pandas, as the script uses it *)

Module Pandas.

(** A frame of text cells; [None] is a missing value (NaN). *)
Record DataFrame : Type := mk_frame {
  columns : list string;
  index : list nat;
  values : list (list (option string))
}.

(** Column labels of a list of dicts: the keys, in order of first
    appearance. *)
Definition add_key (cols : list string) (k : string) : list string :=
  if existsb (String.eqb k) cols then cols else cols ++ [k].

Definition add_keys (cols : list string) (d : dict) : list string :=
  fold_left add_key (keys d) cols.

(** [pd.DataFrame(data)] for a list of dicts. *)
Definition of_dicts (data : list dict) : DataFrame :=
  let cols := fold_left add_keys data [] in
  {| columns := cols;
     index := seq 0 (length data);
     values := map (fun d => map (dict_get d) cols) data |}.

Definition comma : ascii := ascii_of_nat 44.
Definition quotechar : ascii := ascii_of_nat 34.
Definition newline : string := String (ascii_of_nat 10) EmptyString.

(** csv.QUOTE_MINIMAL: a cell is quoted when it holds the delimiter,
    the quote character or a character of the line terminator, which is
    [newline] here (pandas passes the one of the platform). *)
Definition special (c : ascii) : bool :=
  Ascii.eqb c comma || Ascii.eqb c quotechar
  || PyStr.has_char (Ascii.eqb c) newline.

Fixpoint double_quotes (s : string) : string :=
  match s with
  | EmptyString => EmptyString
  | String c r =>
      if Ascii.eqb c quotechar
      then String c (String c (double_quotes r))
      else String c (double_quotes r)
  end.

Definition csv_cell (s : string) : string :=
  if PyStr.has_char special s
  then PyStr.dquote ++ double_quotes s ++ PyStr.dquote
  else s.

(** One written row; a row made of a single empty cell is quoted. *)
Definition csv_row (cells : list string) : string :=
  match cells with
  | [EmptyString] => PyStr.dquote ++ PyStr.dquote ++ newline
  | _ => PyStr.join "," (map csv_cell cells) ++ newline
  end.

Definition cell_text (v : option string) : string :=
  match v with Some s => s | None => "" end.

(** The rows [df.to_csv(path, index=True)] writes: the header, whose
    index label is empty, then one row per frame row. *)
Definition csv_rows (df : DataFrame) : list (list string) :=
  ("" :: columns df)
  :: map (fun '(i, row) => PyStr.of_nat i :: map cell_text row)
       (combine (index df) (values df)).

Definition to_csv (df : DataFrame) : string :=
  String.concat "" (map csv_row (csv_rows df)).

End Pandas.

(* ================================================================== *)
(** ** The browser session and the file system

    What the outside world answers to the script. The result pages are
    numbered in the order the loop visits them. *)

Record Visit : Type := mk_visit {
  page_source : reply string;     (* driver.page_source *)
  scroll : reply unit;            (* driver.execute_script(...) *)
  next_clickable : reply unit;    (* wait for the next-page control *)
  next_click : reply unit;        (* next_button.click() *)
  listings_present : reply unit   (* wait for the new page's listings *)
}.

Record World : Type := mk_world {
  chrome : reply unit;
  get_url : reply unit;
  maximize_window : reply unit;
  cookie_clickable : reply unit;
  cookie_click : reply unit;
  visit : nat -> Visit;
  quit : reply unit;
  write_file : reply unit
}.

Section Script.

Context {bs : BeautifulSoup}.
Variable w : World.

Definition url : string := "https://www.immoscout24.ch/en/flat/rent/city-basel".

Definition get_all_data : M (list dict) := fun g => (Ok (all_data g), g, []).

Definition set_all_data (data : list dict) : M unit :=
  fun _ => (Ok tt, mk_globals data, []).

(** [all_data.extend(xs)] *)
Definition all_data_extend (xs : list dict) : M unit :=
  fun g => (Ok tt, mk_globals (all_data g ++ xs), []).

(** Lines 61-70. *)
Definition accept_cookies : M unit :=
  try_except
    (call (Driver (UntilClickable "onetrust-accept-btn-handler" 10)) (cookie_clickable w) ;;
     call (Driver Click) (cookie_click w) ;;
     sleep 2)
    Exception
    (fun e => print ("No cookie banner found or failed to click: " ++ exn_msg e)).

(** Lines 141-150. *)
Definition scrape_data_from_page (v : Visit) : M unit :=
  page_source <- call (Driver PageSource) (page_source v) ;;
  scraped_data <- extract_listing_data page_source ;;
  all_data_extend scraped_data.

(** Lines 157-173: the body of the [try] in the loop. *)
Definition next_page (v : Visit) : M unit :=
  call (Driver (ExecuteScript "window.scrollTo(0, document.body.scrollHeight);"))
    (scroll v) ;;
  sleep 1 ;;
  call (Driver (UntilClickable "a[aria-label='Go to next page']" 10))
    (next_clickable v) ;;
  call (Driver Click) (next_click v) ;;
  call (Driver (UntilPresent "div[data-test='result-list-item']" 10))
    (listings_present v) ;;
  sleep 2.

(** Lines 153-178: [while True], from page [n] on. The loop has no
    bound of its own; [fuel] bounds the pages the model follows. *)
Fixpoint pagination_loop (fuel n : nat) : M unit :=
  match fuel with
  | O => fun g => (OutOfFuel, g, [])
  | S fuel =>
      scrape_data_from_page (visit w n) ;;
      again <- try_except
                 (next_page (visit w n) ;; ret true)
                 TimeoutException
                 (fun _ => print "Reached the last page." ;; ret false) ;;
      if again then pagination_loop fuel (S n) else ret tt
  end.

(** The whole module, top to bottom. *)
Definition script (fuel : nat) : M unit :=
  call (Driver Chrome) (chrome w) ;;
  call (Driver (Get url)) (get_url w) ;;
  sleep 3 ;;
  call (Driver MaximizeWindow) (maximize_window w) ;;
  accept_cookies ;;
  sleep 5 ;;
  set_all_data [] ;;
  pagination_loop fuel 0 ;;
  call (Driver Quit) (quit w) ;;
  data <- get_all_data ;;
  let df := Pandas.of_dicts data in
  call (ToCsv "immoscout_basel_listings.csv" (Pandas.to_csv df)) (write_file w) ;;
  print "Scraping completed. Data saved to immoscout_basel_listings.csv.".

(** Running the module in a fresh interpreter. *)
Definition run (fuel : nat) : result unit * globals * list event :=
  script fuel (mk_globals []).

End Script.

(* ================================================================== *)
(** ** A document model for BeautifulSoup

    An instance of the interface on explicit element trees. It is used
    to run the script on concrete markup. The parser covers the plain
    fragment of HTML the examples are written in: elements with quoted
    or bare attribute values and text, lower-case names. An unclosed
    element is closed at the end of its parent, an end tag that matches
    no open element is dropped, a declaration, a comment or a processing
    instruction is dropped up to its first [>], and a marked section
    whose keyword is unknown is rejected, as html.parser rejects it.
    Outside the fragment: character references, which stay as written,
    the content of [script] and [style], which is read as markup, and
    void elements. *)

Module Dom.

Inductive node : Type :=
| Str (s : string)
| Elem (name : string) (class_ : list string) (attrs : list (string * string))
       (contents : list node).

(** An element together with its ancestors, innermost first. *)
Record tag : Type := mk_tag { parents : list node; elem : node }.

Definition name_of (n : node) : string :=
  match n with Str _ => "" | Elem name _ _ _ => name end.

Definition classes_of (n : node) : list string :=
  match n with Str _ => [] | Elem _ cs _ _ => cs end.

Definition attr_of (n : node) (k : string) : option string :=
  match n with Str _ => None | Elem _ _ attrs _ => dict_get attrs k end.

Fixpoint get_text (n : node) : string :=
  match n with
  | Str s => s
  | Elem _ _ _ cs =>
      (fix go (cs : list node) : string :=
         match cs with
         | [] => ""
         | c :: r => (get_text c ++ go r)%string
         end) cs
  end.

(** The elements below [n], in document order. *)
Fixpoint descendants (up : list node) (n : node) : list tag :=
  match n with
  | Str _ => []
  | Elem _ _ _ cs =>
      (fix go (cs : list node) : list tag :=
         match cs with
         | [] => []
         | Str _ :: r => go r
         | (Elem _ _ _ _ as c) :: r =>
             mk_tag (n :: up) c :: descendants (n :: up) c ++ go r
         end) cs
  end.

Definition below (t : tag) : list tag := descendants (parents t) (elem t).

Definition has_name (name : string) (t : tag) : bool :=
  String.eqb (name_of (elem t)) name.

Definition has_class (c : string) (t : tag) : bool :=
  existsb (String.eqb c) (classes_of (elem t)).

Definition has_attr (k v : string) (t : tag) : bool :=
  match attr_of (elem t) k with
  | Some v' => String.eqb v' v
  | None => false
  end.

(** Some ancestor is a [div] whose text holds [needle]. *)
Definition inside_div_containing (needle : string) (t : tag) : bool :=
  existsb (fun a => String.eqb (name_of a) "div" && PyStr.contains needle (get_text a))
          (parents t).

Definition first (p : tag -> bool) (ts : list tag) : option tag := List.find p ts.

(** [tag.find(name, class_=c)] *)
Definition find (t : tag) (name c : string) : reply (option tag) :=
  Returns (first (fun d => has_name name d && has_class c d) (below t)).

(** [tag.select_one(selector)], for the selectors the script uses.
    [pseudo] tells whether the selector engine implements the
    [:contains] pseudo-class; one that does not throws on it. *)
Definition select_one (pseudo : bool) (t : tag) (selector : string)
  : reply (option tag) :=
  if String.eqb selector "strong[title='living space']" then
    Returns (first (fun d => has_name "strong" d && has_attr "title" "living space" d)
                   (below t))
  else if String.eqb selector "div:contains('rooms') strong" then
    if pseudo then
      Returns (first (fun d => has_name "strong" d && inside_div_containing "rooms" d)
                     (below t))
    else
      Throws (mk_exn NotImplementedError
                "Only the following pseudo-classes are implemented: nth-of-type.")
  else Throws (mk_exn NotImplementedError "selector outside the document model").

(** [soup.select(selector)], for the container selector. *)
Definition select (root : node) (selector : string) : reply (list tag) :=
  if String.eqb selector
       ("div[data-test=" ++ PyStr.dquote ++ "result-list-item" ++ PyStr.dquote ++ "]")
  then Returns
         (filter (fun d => has_name "div" d && has_attr "data-test" "result-list-item" d)
                 (descendants [] root))
  else Throws (mk_exn NotImplementedError "selector outside the document model").

(** *** Parsing *)

Record frame : Type := mk_frame {
  f_name : string;
  f_attrs : list (string * string);
  f_kids : list node
}.

Fixpoint words_from (cur : string) (s : string) : list string :=
  match s with
  | EmptyString => if String.eqb cur "" then [] else [cur]
  | String c r =>
      if PyStr.is_ascii_space c
      then (if String.eqb cur "" then words_from "" r else cur :: words_from "" r)
      else words_from (cur ++ String c EmptyString) r
  end.

(** [s.split()] *)
Definition words : string -> list string := words_from "".

Definition node_of (f : frame) : node :=
  Elem (f_name f)
       (match dict_get (f_attrs f) "class" with Some c => words c | None => [] end)
       (filter (fun kv => negb (String.eqb (fst kv) "class")) (f_attrs f))
       (f_kids f).

Definition add_kid (n : node) (f : frame) : frame :=
  mk_frame (f_name f) (f_attrs f) (f_kids f ++ [n]).

(** Close the innermost open element; the document itself stays open. *)
Definition close (stack : list frame) : list frame :=
  match stack with
  | f :: p :: r => add_kid (node_of f) p :: r
  | _ => stack
  end.

Fixpoint close_n (k : nat) (stack : list frame) : list frame :=
  match k with
  | O => stack
  | S k => close_n k (close stack)
  end.

(** Depth of the innermost open element called [name], the document
    apart. *)
Fixpoint depth_of (name : string) (stack : list frame) : option nat :=
  match stack with
  | f :: ((_ :: _) as r) =>
      if String.eqb (f_name f) name then Some 1
      else option_map S (depth_of name r)
  | _ => None
  end.

Definition end_tag (name : string) (stack : list frame) : list frame :=
  match depth_of name stack with
  | Some k => close_n k stack
  | None => stack
  end.

Definition add_text (txt : string) (stack : list frame) : list frame :=
  match stack with
  | f :: r => if String.eqb txt "" then stack else add_kid (Str txt) f :: r
  | [] => []
  end.

Definition is_quote (c : ascii) : bool :=
  Ascii.eqb c (ascii_of_nat 34) || Ascii.eqb c (ascii_of_nat 39).

(** The pieces of a start tag: the name, then [key=value] items; white
    space inside quotes does not separate. *)
Fixpoint pieces (quote : option ascii) (cur : string) (s : string) : list string :=
  match s with
  | EmptyString => if String.eqb cur "" then [] else [cur]
  | String c r =>
      match quote with
      | Some q =>
          if Ascii.eqb c q then pieces None cur r
          else pieces quote (cur ++ String c EmptyString) r
      | None =>
          if is_quote c then pieces (Some c) cur r
          else if PyStr.is_ascii_space c
               then (if String.eqb cur "" then pieces None "" r
                     else cur :: pieces None "" r)
               else pieces None (cur ++ String c EmptyString) r
      end
  end.

Fixpoint key_value (key : string) (s : string) : string * string :=
  match s with
  | EmptyString => (key, "")
  | String c r =>
      if Ascii.eqb c (ascii_of_nat 61) then (key, r)
      else key_value (key ++ String c EmptyString) r
  end.

Definition start_tag (body : string) (stack : list frame) : list frame :=
  match pieces None "" body with
  | [] => stack
  | name :: items => mk_frame name (map (key_value "") items) [] :: stack
  end.

Definition lower (c : ascii) : ascii :=
  let n := nat_of_ascii c in
  if Nat.leb 65 n && Nat.leb n 90 then ascii_of_nat (n + 32) else c.

Definition is_name_char (c : ascii) : bool :=
  let n := nat_of_ascii (lower c) in
  (Nat.leb 97 n && Nat.leb n 122) || (Nat.leb 48 n && Nat.leb n 57)
  || Nat.eqb n 45 || Nat.eqb n 95 || Nat.eqb n 46.

(** The keyword a marked section opens with, in lower case. *)
Fixpoint keyword (s : string) : string :=
  match s with
  | EmptyString => EmptyString
  | String c r => if is_name_char c then String (lower c) (keyword r) else EmptyString
  end.

(** The keywords of marked sections html.parser knows; on any other it
    fails, and BeautifulSoup rejects the markup. *)
Definition status_keywords : list string :=
  ["temp"; "cdata"; "ignore"; "include"; "rcdata"; "if"; "else"; "endif"].

Definition rejected_markup : exn :=
  mk_exn ParserRejectedMarkup "The markup you provided was rejected by the parser.".

(** What stands between [<] and [>]: an end tag, a marked section, a
    declaration or comment, a processing instruction, or a start tag.
    [None] when the parser rejects it. *)
Definition markup (body : string) (stack : list frame) : option (list frame) :=
  match body with
  | String c r =>
      if Ascii.eqb c (ascii_of_nat 47) then Some (end_tag (PyStr.strip r) stack)
      else if Ascii.eqb c (ascii_of_nat 33) then
        match r with
        | String d r' =>
            if Ascii.eqb d (ascii_of_nat 91)
            then (if existsb (String.eqb (keyword r')) status_keywords
                  then Some stack else None)
            else Some stack
        | EmptyString => Some stack
        end
      else if Ascii.eqb c (ascii_of_nat 63) then Some stack
      else Some (start_tag body stack)
  | EmptyString => Some stack
  end.

(** One pass over the characters: [txt] is the text read since the
    last tag, [body] the inside of the tag being read, if any. *)
Fixpoint feed (s : string) (txt : string) (body : option string)
         (stack : list frame) : option (list frame) :=
  match s with
  | EmptyString =>
      match body with
      | None => Some (add_text txt stack)
      | Some b => Some (add_text (txt ++ "<" ++ b) stack)
      end
  | String c r =>
      match body with
      | None =>
          if Ascii.eqb c (ascii_of_nat 60)
          then feed r "" (Some "") (add_text txt stack)
          else feed r (txt ++ String c EmptyString) None stack
      | Some b =>
          if Ascii.eqb c (ascii_of_nat 62)
          then match markup b stack with
               | Some stack' => feed r "" None stack'
               | None => None
               end
          else feed r txt (Some (b ++ String c EmptyString)%string) stack
      end
  end.

Definition parse (page : string) : reply node :=
  match feed page "" None [mk_frame "[document]" [] []] with
  | Some stack =>
      Returns match close_n (length stack) stack with
              | f :: _ => node_of f
              | [] => Elem "[document]" [] [] []
              end
  | None => Throws rejected_markup
  end.

Definition soup (pseudo : bool) : BeautifulSoup :=
  {| Soup := node;
     Tag := tag;
     html_parser := parse;
     soup_select := select;
     tag_find := find;
     tag_select_one := select_one pseudo;
     tag_text := fun t => get_text (elem t) |}.

End Dom.

(* ================================================================== *)
(** ** Vocabulary of the properties *)

(** The four fields of a record, with the selectors the script gives
    each of them. *)
Inductive field : Type := Rooms | Size | Price | Address.

Definition key (f : field) : string :=
  match f with
  | Rooms => "Rooms"
  | Size => "Size"
  | Price => "Price"
  | Address => "Address"
  end.

Definition tag_name (f : field) : string :=
  match f with
  | Rooms => "strong"
  | Size => "strong"
  | Price => "span"
  | Address => "div"
  end.

Definition class_name (f : field) : string :=
  match f with
  | Rooms => "HgListingRoomsLivingSpacePrice_roomsLivingSpacePrice_M6Ktp"
  | Size => "HgListingRoomsLivingSpacePrice_commaPrice_mXXpt"
  | Price => "HgListingRoomsLivingSpacePrice_price_u9Vee"
  | Address => "HgListingCard_address_JGiFv"
  end.

(** The second selector, for the fields that have one. *)
Definition fallback_selector (f : field) : option string :=
  match f with
  | Rooms => Some "div:contains('rooms') strong"
  | Size => Some "strong[title='living space']"
  | Price => None
  | Address => None
  end.

Definition is_find (name class_ : string) (ev : event) : bool :=
  match ev with
  | Find n c => String.eqb n name && String.eqb c class_
  | _ => false
  end.

Definition is_select_one (ev : event) : bool :=
  match ev with
  | SelectOne _ => true
  | _ => false
  end.

(** Some look-up [find(name, class_)] in the trace is directly followed
    by a [select_one]: after the first selector a second one was tried. *)
Fixpoint secondary_tried (name class_ : string) (evs : list event) : bool :=
  match evs with
  | [] => false
  | ev :: rest =>
      match rest with
      | [] => false
      | next :: _ => (is_find name class_ ev && is_select_one next)
                     || secondary_tried name class_ rest
      end
  end.

(** The events that end a run: closing the session, writing the file. *)
Definition is_quit (ev : event) : bool :=
  match ev with
  | Driver Quit => true
  | _ => false
  end.

Definition is_to_csv (ev : event) : bool :=
  match ev with
  | ToCsv _ _ => true
  | _ => false
  end.

Definition is_page_source (ev : event) : bool :=
  match ev with
  | Driver PageSource => true
  | _ => false
  end.

Definition count (p : event -> bool) (evs : list event) : nat :=
  length (filter p evs).

Section Vocabulary.

Context {bs : BeautifulSoup}.

(** What parsing a page and querying its listing containers gives, as
    [extract_listing_data] does both: the containers, or the exception
    of the first of the two calls that throws. *)
Definition selected (page : string) : reply (list Tag) :=
  match html_parser page with
  | Throws e => Throws e
  | Returns soup =>
      soup_select soup
        ("div[data-test=" ++ PyStr.dquote ++ "result-list-item" ++ PyStr.dquote ++ "]")
  end.

(** The listing containers of a page; none when the page is rejected. *)
Definition containers (page : string) : list Tag :=
  match selected page with
  | Returns listings => listings
  | Throws _ => []
  end.

(** The parser and the container query accept the page. *)
Definition accepted (page : string) : Prop :=
  exists listings, selected page = Returns listings.

Definition primary (f : field) (listing : Tag) : reply (option Tag) :=
  tag_find listing (tag_name f) (class_name f).

Definition secondary (f : field) (listing : Tag) : option (reply (option Tag)) :=
  option_map (tag_select_one listing) (fallback_selector f).

(** No selector of the field finds anything in the container. *)
Definition unlocated (f : field) (listing : Tag) : Prop :=
  primary f listing = Returns None
  /\ match secondary f listing with
     | Some r => r = Returns None
     | None => True
     end.

(** [t] is what a selector of the field finds in the container. *)
Definition located (f : field) (listing t : Tag) : Prop :=
  primary f listing = Returns (Some t)
  \/ (primary f listing = Returns None
      /\ secondary f listing = Some (Returns (Some t))).

(** What the look-ups of one field, taken alone, give. *)
Definition field_alone (f : field) (listing : Tag) : reply string :=
  match primary f listing with
  | Throws e => Throws e
  | Returns (Some t) => Returns (PyStr.strip (tag_text t))
  | Returns None =>
      match secondary f listing with
      | None => Returns "N/A"
      | Some (Throws e) => Throws e
      | Some (Returns (Some t)) => Returns (PyStr.strip (tag_text t))
      | Some (Returns None) => Returns "N/A"
      end
  end.

(** How the extraction of one container ends, and what it prints and
    looks up. *)
Definition outcome (listing : Tag) : result dict :=
  fst (fst (listing_record listing (mk_globals []))).

Definition trace (listing : Tag) : list event :=
  snd (listing_record listing (mk_globals [])).

(** The records of the containers whose extraction returns, in order. *)
Definition kept (listings : list Tag) : list dict :=
  flat_map (fun l => match outcome l with Ok d => [d] | _ => [] end) listings.

(** What the loop over the containers leaves on the trace for one
    container: its own events, then the diagnostic if it raised. *)
Definition listing_events (listing : Tag) : list event :=
  trace listing
  ++ match outcome listing with
     | Raise e => [Print ("Error extracting data: " ++ exn_msg e)]
     | _ => []
     end.

Definition page_events (page : string) : list event :=
  Print ("Found " ++ PyStr.of_nat (length (containers page)) ++ " listings on the page.")
  :: flat_map listing_events (containers page).

(** The records a visited page contributes. *)
Definition page_records (v : Visit) : list dict :=
  match page_source v with
  | Returns src => kept (containers src)
  | Throws _ => []
  end.

(** The first failure among the pagination steps of a visit. *)
Definition pagination_outcome (v : Visit) : reply unit :=
  match scroll v with
  | Throws e => Throws e
  | Returns _ =>
      match next_clickable v with
      | Throws e => Throws e
      | Returns _ =>
          match next_click v with
          | Throws e => Throws e
          | Returns _ => listings_present v
          end
      end
  end.

(** The events of the pagination steps of a visit, up to the first
    failure. *)
Definition next_page_events (v : Visit) : list event :=
  snd (next_page v (mk_globals [])).

(** The page of a visit loads: the driver hands over its source and
    the parser and the container query accept it. *)
Definition loads (v : Visit) : Prop :=
  exists src, page_source v = Returns src /\ accepted src.

(** A visit whose page loads and whose next page opens. *)
Definition turns_over (v : Visit) : Prop :=
  loads v /\ pagination_outcome v = Returns tt.

(** A visit whose page loads and whose wait for the next-page control
    runs out. *)
Definition last_page (v : Visit) : Prop :=
  loads v
  /\ scroll v = Returns tt
  /\ exists e, next_clickable v = Throws e /\ isinstance e TimeoutException = true.

(** The session starts: the three driver calls before the cookie banner
    return. *)
Definition starts (w : World) : Prop :=
  chrome w = Returns tt /\ get_url w = Returns tt /\ maximize_window w = Returns tt.

End Vocabulary.

(* ================================================================== *)
(** ** Vocabulary of the runs *)

(** An event that is neither the closing of the session nor the writing
    of the file. *)
Definition is_scraping (ev : event) : bool :=
  negb (is_quit ev) && negb (is_to_csv ev).

Section RunVocabulary.

Context {bs : BeautifulSoup}.
Variable w : World.

(** The events of one turn of the loop, the handler's line apart. *)
Definition visit_events (v : Visit) : list event :=
  Driver PageSource
  :: match page_source v with
     | Returns src =>
         match selected src with
         | Returns _ => page_events src ++ next_page_events v
         | Throws _ => []
         end
     | Throws _ => []
     end.

(** The records of the pages [k], ..., [k + m - 1]. *)
Definition records_of_pages (k m : nat) : list dict :=
  flat_map (fun i => page_records (visit w i)) (seq k m).

Definition events_of_pages (k m : nat) : list event :=
  flat_map (fun i => visit_events (visit w i)) (seq k m).

(** The events before the loop, when the session starts. *)
Definition boot_events : list event :=
  [Driver Chrome; Driver (Get url); Sleep 3; Driver MaximizeWindow]
  ++ snd (accept_cookies w (mk_globals []))
  ++ [Sleep 5].

(** The events after the loop, when closing and writing return. *)
Definition closing_events (data : list dict) : list event :=
  [Driver Quit;
   ToCsv "immoscout_basel_listings.csv" (Pandas.to_csv (Pandas.of_dicts data));
   Print "Scraping completed. Data saved to immoscout_basel_listings.csv."].

End RunVocabulary.

(* ================================================================== *)
(** ** Vocabulary of the claims *)




Section ClaimVocabulary.

Context {bs : BeautifulSoup}.

(** The records [extract_listing_data] returns for a page. *)
Definition extracted (page : string) : list dict :=
  match fst (fst (extract_listing_data page (mk_globals []))) with
  | Ok ds => ds
  | _ => []
  end.

(** The per-page extracted count of a visit. *)
Definition extracted_count (v : Visit) : nat :=
  match page_source v with
  | Returns src => length (extracted src)
  | Throws _ => 0
  end.

(** A record with exactly the four fields, each holding the stripped
    text of an element a selector of the field found in the container,
    or the sentinel when no selector of the field found anything. *)
Definition well_formed (listing : Tag) (d : dict) : Prop :=
  keys d = ["Rooms"; "Size"; "Price"; "Address"]
  /\ forall f,
      (unlocated f listing /\ dict_get d (key f) = Some "N/A")
      \/ (exists t, located f listing t
                    /\ dict_get d (key f) = Some (PyStr.strip (tag_text t))).

(** Closing the session and writing the file return. *)
Definition finishes (w : World) : Prop :=
  quit w = Returns tt /\ write_file w = Returns tt.

End ClaimVocabulary.

(* ================================================================== *)
(** ** Concrete pages and sessions *)

(** A container with nothing in it. *)
Definition bare_page : string := "<div data-test='result-list-item'></div>".

Definition bare_div : Dom.node :=
  Dom.Elem "div" [] [("data-test", "result-list-item")] [].

Definition bare_listing : Dom.tag :=
  Dom.mk_tag [Dom.Elem "[document]" [] [] [bare_div]] bare_div.

Definition bare_record : dict :=
  [("Rooms", "N/A"); ("Size", "N/A"); ("Price", "N/A"); ("Address", "N/A")].

Definition bare_trace : list event :=
  [Find "strong" "HgListingRoomsLivingSpacePrice_roomsLivingSpacePrice_M6Ktp";
   SelectOne "div:contains('rooms') strong";
   Print "Rooms: N/A";
   Find "strong" "HgListingRoomsLivingSpacePrice_commaPrice_mXXpt";
   SelectOne "strong[title='living space']";
   Print "Size: N/A";
   Find "span" "HgListingRoomsLivingSpacePrice_price_u9Vee";
   Print "Price: N/A";
   Find "div" "HgListingCard_address_JGiFv";
   Print "Address: N/A"].

(** The [i]-th container of a page, in the document model. *)
Definition container (page : string) (i : nat) : Dom.tag :=
  nth i (containers (bs := Dom.soup true) page) (Dom.mk_tag [] (Dom.Str "")).

(** A first result page: two listings, every field under its first
    selector. *)
Definition page_one : string :=
  "<html><body>"
  ++ "<div data-test='result-list-item'>"
  ++ "<strong class='HgListingRoomsLivingSpacePrice_roomsLivingSpacePrice_M6Ktp'>3.5 rooms</strong>"
  ++ "<strong class='HgListingRoomsLivingSpacePrice_commaPrice_mXXpt'>80 m2</strong>"
  ++ "<span class='HgListingRoomsLivingSpacePrice_price_u9Vee'>CHF 2100</span>"
  ++ "<div class='HgListingCard_address_JGiFv'> Rheingasse 1, 4058 Basel </div>"
  ++ "</div>"
  ++ "<div data-test='result-list-item'>"
  ++ "<strong class='HgListingRoomsLivingSpacePrice_roomsLivingSpacePrice_M6Ktp'>2 rooms</strong>"
  ++ "<strong class='HgListingRoomsLivingSpacePrice_commaPrice_mXXpt'>55 m2</strong>"
  ++ "<span class='HgListingRoomsLivingSpacePrice_price_u9Vee'>CHF 1450</span>"
  ++ "<div class='HgListingCard_address_JGiFv'>Spalenberg 7, 4051 Basel</div>"
  ++ "</div>"
  ++ "<a aria-label='Go to next page'>next</a>"
  ++ "</body></html>".

(** A last result page: one listing, found by the second selectors, its
    address under no selector. *)
Definition page_two : string :=
  "<html><body>"
  ++ "<div data-test='result-list-item'>"
  ++ "<div>4.5 rooms <strong>4.5</strong></div>"
  ++ "<strong title='living space'>110 m2</strong>"
  ++ "<span class='HgListingRoomsLivingSpacePrice_price_u9Vee'>CHF 3000</span>"
  ++ "</div>"
  ++ "</body></html>".

(** A container in which both selectors of Rooms match, on different
    elements. *)
Definition both_page : string :=
  "<div data-test='result-list-item'>"
  ++ "<div>4 rooms <strong>4</strong></div>"
  ++ "<strong class='HgListingRoomsLivingSpacePrice_roomsLivingSpacePrice_M6Ktp'> 3.5 rooms </strong>"
  ++ "</div>".

(** Three containers; the middle one has its rooms under the second
    selector only, the last one has no address. *)
Definition mixed_page : string :=
  "<div data-test='result-list-item'>"
  ++ "<strong class='HgListingRoomsLivingSpacePrice_roomsLivingSpacePrice_M6Ktp'>3.5 rooms</strong>"
  ++ "<div class='HgListingCard_address_JGiFv'>Rheingasse 1</div>"
  ++ "</div>"
  ++ "<div data-test='result-list-item'>"
  ++ "<div>4 rooms <strong>4</strong></div>"
  ++ "</div>"
  ++ "<div data-test='result-list-item'>"
  ++ "<strong class='HgListingRoomsLivingSpacePrice_roomsLivingSpacePrice_M6Ktp'>2 rooms</strong>"
  ++ "<strong class='HgListingRoomsLivingSpacePrice_commaPrice_mXXpt'>55 m2</strong>"
  ++ "<span class='HgListingRoomsLivingSpacePrice_price_u9Vee'>CHF 1450</span>"
  ++ "</div>".

(** A page without results. *)
Definition no_results_page : string := "<html><body><p>No results</p></body></html>".

Definition timed_out : exn :=
  mk_exn TimeoutException "Message: ".


(** A visit whose next page opens. *)
Definition turning (src : string) : Visit :=
  mk_visit (Returns src) (Returns tt) (Returns tt) (Returns tt) (Returns tt).

(** A visit on which no next-page control shows up in time. *)
Definition ending (src : string) : Visit :=
  mk_visit (Returns src) (Returns tt) (Throws timed_out) (Returns tt) (Returns tt).


(** A session without a cookie banner that serves the given visits. *)
Definition session (visits : nat -> Visit) : World :=
  mk_world (Returns tt) (Returns tt) (Returns tt)
           (Throws timed_out) (Returns tt)
           visits
           (Returns tt) (Returns tt).

(** Two result pages. *)
Definition two_pages : World :=
  session (fun n => match n with O => turning page_one | _ => ending page_two end).


(** A site that shows no listing. *)
Definition empty_site : World :=
  session (fun _ => ending no_results_page).

(** The container of [both_page], its record, and the element its first
    Rooms selector finds. *)
Definition both_listing : Dom.tag := container both_page 0.

Definition both_record : dict :=
  [("Rooms", "3.5 rooms"); ("Size", "N/A"); ("Price", "N/A"); ("Address", "N/A")].

Definition both_trace : list event :=
  [Find "strong" "HgListingRoomsLivingSpacePrice_roomsLivingSpacePrice_M6Ktp";
   Print "Rooms: 3.5 rooms";
   Find "strong" "HgListingRoomsLivingSpacePrice_commaPrice_mXXpt";
   SelectOne "strong[title='living space']";
   Print "Size: N/A";
   Find "span" "HgListingRoomsLivingSpacePrice_price_u9Vee";
   Print "Price: N/A";
   Find "div" "HgListingCard_address_JGiFv";
   Print "Address: N/A"].

Definition both_strong : Dom.tag :=
  Eval vm_compute in
    match Dom.find both_listing "strong"
            "HgListingRoomsLivingSpacePrice_roomsLivingSpacePrice_M6Ktp" with
    | Returns (Some t) => t
    | _ => both_listing
    end.

(** The element the second Rooms selector finds in the same container. *)
Definition both_other : Dom.tag :=
  Eval vm_compute in
    match Dom.select_one true both_listing "div:contains('rooms') strong" with
    | Returns (Some t) => t
    | _ => both_listing
    end.

(** The records and the console lines of [page_one]. *)
Definition page_one_records : list dict :=
  [[("Rooms", "3.5 rooms"); ("Size", "80 m2"); ("Price", "CHF 2100");
    ("Address", "Rheingasse 1, 4058 Basel")];
   [("Rooms", "2 rooms"); ("Size", "55 m2"); ("Price", "CHF 1450");
    ("Address", "Spalenberg 7, 4051 Basel")]].

Definition page_two_records : list dict :=
  [[("Rooms", "4.5"); ("Size", "110 m2"); ("Price", "CHF 3000");
    ("Address", "N/A")]].


Definition unsupported : exn :=
  mk_exn NotImplementedError
         "Only the following pseudo-classes are implemented: nth-of-type.".



(** The file of a run over [two_pages]; the addresses hold a comma and
    are quoted. *)
Definition two_pages_csv : string :=
  ",Rooms,Size,Price,Address" ++ Pandas.newline
  ++ "0,3.5 rooms,80 m2,CHF 2100,"
  ++ PyStr.dquote ++ "Rheingasse 1, 4058 Basel" ++ PyStr.dquote ++ Pandas.newline
  ++ "1,2 rooms,55 m2,CHF 1450,"
  ++ PyStr.dquote ++ "Spalenberg 7, 4051 Basel" ++ PyStr.dquote ++ Pandas.newline
  ++ "2,4.5,110 m2,CHF 3000,N/A" ++ Pandas.newline.

(** The keys of a record, in the order the script inserts them. *)
Definition four_keys : list string := ["Rooms"; "Size"; "Price"; "Address"].

(* ================================================================== *)
(** ** Vocabulary of the further properties *)

(** A console line of the handler around one container. *)
Definition is_error_line (ev : event) : bool :=
  match ev with
  | Print line => prefix "Error extracting data: " line
  | _ => false
  end.

Definition is_driver (ev : event) : bool :=
  match ev with
  | Driver _ => true
  | _ => false
  end.

Definition is_click (ev : event) : bool :=
  match ev with
  | Driver Click => true
  | _ => false
  end.

(** No white space at either end: stripping on the left or on the
    right changes nothing. *)
Definition trimmed (s : string) : Prop :=
  PyStr.lstrip s = s /\ PyStr.rstrip s = s.

(** The order in which the extractor takes the fields. *)
Definition position (f : field) : nat :=
  match f with
  | Rooms => 0
  | Size => 1
  | Price => 2
  | Address => 3
  end.

(** How the script fails before the cookie banner, if it does: the
    exception and the driver calls made. *)
Definition start_failure (w : World) : option (exn * list event) :=
  match chrome w with
  | Throws e => Some (e, [Driver Chrome])
  | Returns _ =>
      match get_url w with
      | Throws e => Some (e, [Driver Chrome; Driver (Get url)])
      | Returns _ =>
          match maximize_window w with
          | Throws e =>
              Some (e, [Driver Chrome; Driver (Get url); Sleep 3; Driver MaximizeWindow])
          | Returns _ => None
          end
      end
  end.

(** Two worlds that differ at most in what the cookie banner does. *)
Definition same_but_cookies (w w' : World) : Prop :=
  chrome w = chrome w'
  /\ get_url w = get_url w'
  /\ maximize_window w = maximize_window w'
  /\ (forall n, visit w n = visit w' n)
  /\ quit w = quit w'
  /\ write_file w = write_file w'.

(** How a run that left the loop ends, by what closing the session and
    writing the file answer. *)
Definition closing_result (w : World) : result unit :=
  match quit w with
  | Throws e => Raise e
  | Returns _ =>
      match write_file w with
      | Throws e => Raise e
      | Returns _ => Ok tt
      end
  end.

(** The events after the loop: the closing, then the writing if the
    closing returned, then the final line if the writing returned. *)
Definition closing_trace (w : World) (data : list dict) : list event :=
  Driver Quit
  :: match quit w with
     | Throws _ => []
     | Returns _ =>
         ToCsv "immoscout_basel_listings.csv" (Pandas.to_csv (Pandas.of_dicts data))
         :: match write_file w with
            | Throws _ => []
            | Returns _ =>
                [Print "Scraping completed. Data saved to immoscout_basel_listings.csv."]
            end
     end.

(** A session with a cookie banner that is accepted. *)
Definition with_banner (visits : nat -> Visit) : World :=
  mk_world (Returns tt) (Returns tt) (Returns tt)
           (Returns tt) (Returns tt)
           visits
           (Returns tt) (Returns tt).

(** A visit whose page the driver fails to hand over. *)
Definition unloadable (e : exn) : Visit :=
  mk_visit (Throws e) (Returns tt) (Returns tt) (Returns tt) (Returns tt).

(** A visit on which the click goes through but the listings of the new
    page do not show up in time. *)
Definition slow (src : string) : Visit :=
  mk_visit (Returns src) (Returns tt) (Returns tt) (Returns tt) (Throws timed_out).

(** One result page, then a page the driver cannot hand over in time. *)
Definition second_page_lost : World :=
  session (fun n => match n with O => turning page_one | _ => unloadable timed_out end).

(** One result page, whose successor is slow to show its listings. *)
Definition slow_site : World := session (fun _ => slow page_one).

(** A site whose every page has a next page. *)
Definition endless_site : World := session (fun _ => turning page_two).

(** Markup without a listing container that html.parser fails on: a
    marked section with an unknown keyword. *)
Definition oops_page : string := "<![oops]>".


(** The two result pages, on a session whose closing fails. *)
Definition closing_fails : World :=
  mk_world (Returns tt) (Returns tt) (Returns tt)
           (Throws timed_out) (Returns tt)
           (fun n => match n with O => turning page_one | _ => ending page_two end)
           (Throws (mk_exn WebDriverException "Message: invalid session id"))
           (Returns tt).

(** One result page, then a page whose markup the parser rejects. *)
Definition second_page_rejected : World :=
  session (fun n => match n with O => turning page_one | _ => turning oops_page end).

(** A price followed by a thin space (U+2009) and a line break. *)
Definition thin_spaced : string :=
  "CHF 2100" ++ String (ascii_of_nat 226) (String (ascii_of_nat 128)
                  (String (ascii_of_nat 137) (String (ascii_of_nat 10) EmptyString))).

(** A word that ends in a letter whose last byte is 0xA0 (a grave). *)
Definition voila : string :=
  "Voil" ++ String (ascii_of_nat 195) (String (ascii_of_nat 160) EmptyString).

(* ================================================================== *)
(** ** Proof steps *)

(** Unfold the extraction of one container down to the replies of the
    parser. *)
Ltac unfold_py :=
  cbv beta iota zeta delta
    [listing_record find select_one call bind emit ret raise print sleep
     outcome trace primary secondary field_alone tag_name class_name
     fallback_selector option_map fst snd].

(** Split on every reply of the parser the goal still waits for. *)
Ltac reply_cases :=
  repeat match goal with
         | |- context [tag_find ?l ?n ?c] =>
             let r := fresh "r" in
             destruct (tag_find l n c) as [[r|]|r]; cbv beta iota zeta
         | |- context [tag_select_one ?l ?s] =>
             let r := fresh "r" in
             destruct (tag_select_one l s) as [[r|]|r]; cbv beta iota zeta
         end.

(** Unfold the steps of the script around the loop. *)
Ltac unfold_run :=
  cbv beta iota zeta delta
    [run script scrape_data_from_page next_page accept_cookies try_except
     call bind emit ret raise print sleep set_all_data get_all_data
     all_data_extend next_page_events pagination_outcome boot_events
     closing_events fst snd].

(* ================================================================== *)
(** ** How the extractor runs *)

(** [except Exception] catches every exception of the model. *)
Lemma every_exn_is_Exception (e : exn) : isinstance e Exception = true.
Proof. destruct e as [c m]; destruct c; reflexivity. Qed.

(** [except TimeoutException] lets through exactly the exceptions of the
    other classes: no class of the hierarchy descends from it. *)
Lemma not_timeout_not_caught (e : exn) :
  isinstance e TimeoutException = false <-> exn_cls e <> TimeoutException.
Proof.
  destruct e as [c m]; destruct c; cbn; split; intro H;
    try reflexivity; try discriminate; try congruence.
Qed.

Section ExtractorFacts.

Context {bs : BeautifulSoup}.

(** Extracting a container neither reads nor writes the globals. *)
Lemma listing_record_globals (listing : Tag) (g : globals) :
  listing_record listing g = (outcome listing, g, trace listing).
Proof. unfold_py. reply_cases. all: reflexivity. Qed.

(** A container yields a record exactly when the look-ups of each field
    return, and the record holds what they give, under the four keys in
    the order Rooms, Size, Price, Address. *)
Lemma outcome_by_field (listing : Tag) :
  outcome listing =
  match field_alone Rooms listing with
  | Throws e => Raise e
  | Returns rooms =>
      match field_alone Size listing with
      | Throws e => Raise e
      | Returns size =>
          match field_alone Price listing with
          | Throws e => Raise e
          | Returns price =>
              match field_alone Address listing with
              | Throws e => Raise e
              | Returns address =>
                  Ok [("Rooms", rooms); ("Size", size);
                      ("Price", price); ("Address", address)]
              end
          end
      end
  end.
Proof. unfold_py. reply_cases. all: reflexivity. Qed.

Lemma outcome_terminates (listing : Tag) : outcome listing <> OutOfFuel.
Proof. unfold_py. reply_cases. all: discriminate. Qed.

Lemma record_value (listing : Tag) (d : dict) (f : field) :
  outcome listing = Ok d ->
  exists v, field_alone f listing = Returns v /\ dict_get d (key f) = Some v.
Proof.
  rewrite outcome_by_field.
  destruct (field_alone Rooms listing) as [vr|] eqn:Hr; [|discriminate].
  destruct (field_alone Size listing) as [vs|] eqn:Hs; [|discriminate].
  destruct (field_alone Price listing) as [vp|] eqn:Hp; [|discriminate].
  destruct (field_alone Address listing) as [va|] eqn:Ha; [|discriminate].
  intros [= <-]. destruct f; eexists; (split; [eassumption|reflexivity]).
Qed.

Lemma record_keys (listing : Tag) (d : dict) :
  outcome listing = Ok d -> keys d = ["Rooms"; "Size"; "Price"; "Address"].
Proof.
  rewrite outcome_by_field.
  destruct (field_alone Rooms listing) as [vr|]; [|discriminate].
  destruct (field_alone Size listing) as [vs|]; [|discriminate].
  destruct (field_alone Price listing) as [vp|]; [|discriminate].
  destruct (field_alone Address listing) as [va|]; [|discriminate].
  intros [= <-]. reflexivity.
Qed.

(** The loop over the containers: it always returns, with the records
    of the containers that returned, after those already collected. *)
Lemma for_listings_run (listings : list Tag) :
  forall (scraped_data : list dict) (g : globals),
    for_listings listings scraped_data g =
    (Ok (scraped_data ++ kept listings), g, flat_map listing_events listings).
Proof.
  induction listings as [|listing rest IH]; intros scraped_data g.
  - cbn. rewrite app_nil_r. reflexivity.
  - cbn [for_listings]. unfold bind at 1. unfold try_except, bind at 1.
    rewrite listing_record_globals.
    cbn [kept flat_map]. fold (kept rest). unfold listing_events at 1.
    pose proof (outcome_terminates listing) as Hfuel.
    destruct (outcome listing) as [d|e|]; [| |congruence].
    + cbn. rewrite IH. rewrite <- !app_assoc. cbn. reflexivity.
    + rewrite every_exn_is_Exception. cbn. rewrite IH. rewrite <- !app_assoc.
      reflexivity.
Qed.

(** The extractor on a page: it raises what the parser or the container
    query throws, before anything is printed; on a page they accept it
    returns. *)
Lemma extract_listing_data_run (page : string) (g : globals) :
  extract_listing_data page g =
  match selected page with
  | Returns _ => (Ok (kept (containers page)), g, page_events page)
  | Throws e => (Raise e, g, [])
  end.
Proof.
  unfold page_events, containers, selected.
  cbv beta iota zeta delta [extract_listing_data bind answer ret raise print emit].
  destruct (html_parser page) as [soup|e]; [|reflexivity].
  destruct (soup_select soup _) as [listings|e]; [|reflexivity].
  rewrite for_listings_run. reflexivity.
Qed.

Lemma extract_listing_data_accepted (page : string) (g : globals) :
  accepted page ->
  extract_listing_data page g = (Ok (kept (containers page)), g, page_events page).
Proof. intros [listings H]. rewrite extract_listing_data_run, H. reflexivity. Qed.

Lemma extract_listing_data_returns
    (page : string) (g g' : globals) (ds : list dict) (evs : list event) :
  extract_listing_data page g = (Ok ds, g', evs) ->
  accepted page /\ ds = kept (containers page) /\ g' = g /\ evs = page_events page.
Proof.
  rewrite extract_listing_data_run. destruct (selected page) as [listings|e] eqn:H.
  - intros [= <- <- <-]. split; [exists listings; exact H|]. auto.
  - discriminate.
Qed.

End ExtractorFacts.

(* ================================================================== *)
(** ** How the loop and the script run *)

Section ScriptFacts.

Context {bs : BeautifulSoup}.
Variable w : World.

Lemma scrape_data_from_page_run (v : Visit) (g : globals) (src : string) :
  page_source v = Returns src ->
  accepted src ->
  scrape_data_from_page v g =
  (Ok tt, mk_globals (all_data g ++ kept (containers src)),
   Driver PageSource :: page_events src).
Proof.
  intros Hsrc Hacc.
  cbv beta iota zeta delta [scrape_data_from_page bind call emit ret all_data_extend].
  rewrite Hsrc. cbv beta iota zeta.
  rewrite (extract_listing_data_accepted src g Hacc). cbn. rewrite app_nil_r.
  reflexivity.
Qed.

(** A page the parser or the container query rejects: the exception
    leaves the scrape, the globals untouched. *)
Lemma scrape_data_from_page_rejected (v : Visit) (g : globals) (src : string) (e : exn) :
  page_source v = Returns src ->
  selected src = Throws e ->
  scrape_data_from_page v g = (Raise e, g, [Driver PageSource]).
Proof.
  intros Hsrc Hrej.
  cbv beta iota zeta delta [scrape_data_from_page bind call emit ret all_data_extend].
  rewrite Hsrc. cbv beta iota zeta.
  rewrite extract_listing_data_run, Hrej. reflexivity.
Qed.

Lemma visit_events_loaded (v : Visit) (src : string) :
  page_source v = Returns src ->
  accepted src ->
  visit_events v = Driver PageSource :: page_events src ++ next_page_events v.
Proof.
  intros Hsrc [listings Hacc]. unfold visit_events. rewrite Hsrc, Hacc. reflexivity.
Qed.

Lemma scrape_data_from_page_fails (v : Visit) (g : globals) (e : exn) :
  page_source v = Throws e ->
  scrape_data_from_page v g = (Raise e, g, [Driver PageSource]).
Proof.
  intros Hsrc.
  cbv beta iota zeta delta [scrape_data_from_page bind call emit raise].
  rewrite Hsrc. reflexivity.
Qed.

(** The pagination steps neither read nor write the globals, and end as
    their first failure says. *)
Lemma next_page_run (v : Visit) (g : globals) :
  next_page v g =
  (match pagination_outcome v with Returns _ => Ok tt | Throws e => Raise e end,
   g, next_page_events v).
Proof.
  unfold_run.
  destruct (scroll v); [|reflexivity].
  destruct (next_clickable v); [|reflexivity].
  destruct (next_click v); [|reflexivity].
  destruct (listings_present v); reflexivity.
Qed.

(** One turn of the loop whose next page opens. *)
Lemma loop_turns_over (fuel n : nat) (g : globals) (src : string) :
  page_source (visit w n) = Returns src ->
  accepted src ->
  pagination_outcome (visit w n) = Returns tt ->
  pagination_loop w (S fuel) n g =
  let '(r, g', evs) :=
    pagination_loop w fuel (S n) (mk_globals (all_data g ++ kept (containers src))) in
  (r, g', visit_events (visit w n) ++ evs).
Proof.
  intros Hsrc Hacc Hnext. cbn [pagination_loop]. unfold bind at 1.
  rewrite (scrape_data_from_page_run _ _ _ Hsrc Hacc).
  unfold bind at 1. unfold try_except, bind at 1. rewrite next_page_run, Hnext.
  cbn [ret]. rewrite (visit_events_loaded _ _ Hsrc Hacc).
  destruct (pagination_loop w fuel (S n) _) as [[r g'] evs].
  cbn. rewrite app_nil_r, <- app_assoc. reflexivity.
Qed.

(** One turn of the loop whose pagination steps throw: a timeout ends
    the loop, anything else leaves it as an exception. *)
Lemma loop_stops (fuel n : nat) (g : globals) (src : string) (e : exn) :
  page_source (visit w n) = Returns src ->
  accepted src ->
  pagination_outcome (visit w n) = Throws e ->
  pagination_loop w (S fuel) n g =
  (if isinstance e TimeoutException then Ok tt else Raise e,
   mk_globals (all_data g ++ kept (containers src)),
   visit_events (visit w n)
   ++ if isinstance e TimeoutException then [Print "Reached the last page."] else []).
Proof.
  intros Hsrc Hacc Hnext. cbn [pagination_loop]. unfold bind at 1.
  rewrite (scrape_data_from_page_run _ _ _ Hsrc Hacc).
  unfold bind at 1. unfold try_except, bind at 1. rewrite next_page_run, Hnext.
  rewrite (visit_events_loaded _ _ Hsrc Hacc).
  destruct (isinstance e TimeoutException); cbn;
    rewrite ?app_nil_r, <- ?app_assoc; reflexivity.
Qed.

(** The loop over [m] pages that turn over and a last one whose
    pagination steps throw [e]. *)
Lemma loop_run (m : nat) :
  forall (k fuel : nat) (g : globals) (e : exn),
    m < fuel ->
    (forall i, k <= i < k + m -> turns_over (visit w i)) ->
    loads (visit w (k + m)) ->
    pagination_outcome (visit w (k + m)) = Throws e ->
    pagination_loop w fuel k g =
    (if isinstance e TimeoutException then Ok tt else Raise e,
     mk_globals (all_data g ++ records_of_pages w k (S m)),
     events_of_pages w k (S m)
     ++ if isinstance e TimeoutException then [Print "Reached the last page."] else []).
Proof.
  induction m as [|m IH]; intros k fuel g e Hfuel Hturn (src & Hsrc & Hacc) Hlast.
  - destruct fuel as [|fuel]; [lia|].
    rewrite Nat.add_0_r in Hsrc, Hlast.
    rewrite (loop_stops _ _ _ _ _ Hsrc Hacc Hlast).
    unfold records_of_pages, events_of_pages, page_records. cbn.
    rewrite Hsrc, !app_nil_r. reflexivity.
  - destruct fuel as [|fuel]; [lia|].
    destruct (Hturn k ltac:(lia)) as [(src0 & Hsrc0 & Hacc0) Hnext0].
    rewrite (loop_turns_over _ _ _ _ Hsrc0 Hacc0 Hnext0).
    rewrite (IH (S k) fuel _ e).
    + unfold records_of_pages, events_of_pages. cbn [seq flat_map all_data].
      replace (page_records (visit w k)) with (kept (containers src0))
        by (unfold page_records; rewrite Hsrc0; reflexivity).
      rewrite <- !app_assoc. reflexivity.
    + lia.
    + intros i Hi. apply Hturn. lia.
    + exists src. split; [|exact Hacc]. rewrite <- Hsrc. f_equal. f_equal. lia.
    + rewrite <- Hlast. f_equal. f_equal. lia.
Qed.

End ScriptFacts.

(* ================================================================== *)
(** ** The session is neither closed nor the file written while scraping *)

Section Scraping.

Context {bs : BeautifulSoup}.
Variable w : World.

Lemma trace_scraping (listing : Tag) : forallb is_scraping (trace listing) = true.
Proof.
  unfold_py. reply_cases. all: reflexivity.
Qed.

Lemma page_events_scraping (page : string) : forallb is_scraping (page_events page) = true.
Proof.
  unfold page_events. cbn [forallb is_scraping is_quit is_to_csv negb andb].
  induction (containers page) as [|listing rest IH]; [reflexivity|].
  cbn [flat_map]. rewrite forallb_app, IH, andb_true_r.
  unfold listing_events. rewrite forallb_app, trace_scraping.
  destruct (outcome listing); reflexivity.
Qed.

Lemma next_page_events_scraping (v : Visit) :
  forallb is_scraping (next_page_events v) = true.
Proof.
  cbv beta iota zeta delta [next_page_events next_page call bind emit ret raise sleep snd].
  destruct (scroll v); [|reflexivity].
  destruct (next_clickable v); [|reflexivity].
  destruct (next_click v); [|reflexivity].
  destruct (listings_present v); reflexivity.
Qed.

Lemma visit_events_scraping (v : Visit) : forallb is_scraping (visit_events v) = true.
Proof.
  unfold visit_events. cbn [forallb is_scraping is_quit is_to_csv negb andb].
  destruct (page_source v) as [src|]; [|reflexivity].
  destruct (selected src); [|reflexivity].
  rewrite forallb_app, page_events_scraping, next_page_events_scraping. reflexivity.
Qed.

(** However the loop ends, and whatever the browser answers, its events
    hold no closing of the session and no writing of the file. *)
Lemma loop_scraping (fuel : nat) :
  forall (n : nat) (g : globals),
    forallb is_scraping (snd (pagination_loop w fuel n g)) = true.
Proof.
  induction fuel as [|fuel IH]; intros n g; [reflexivity|].
  destruct (page_source (visit w n)) as [src|e] eqn:Hsrc.
  - destruct (selected src) as [listings|e] eqn:Hsel.
    + assert (Hacc : accepted src) by (exists listings; exact Hsel).
      destruct (pagination_outcome (visit w n)) as [[]|e] eqn:Hnext.
      * rewrite (loop_turns_over w _ _ _ _ Hsrc Hacc Hnext).
        specialize (IH (S n) (mk_globals (all_data g ++ kept (containers src)))).
        destruct (pagination_loop w fuel (S n) _) as [[r g'] evs].
        cbn [snd] in *. rewrite forallb_app, visit_events_scraping, IH. reflexivity.
      * rewrite (loop_stops w _ _ _ _ _ Hsrc Hacc Hnext). cbn [snd].
        rewrite forallb_app, visit_events_scraping.
        destruct (isinstance e TimeoutException); reflexivity.
    + cbn [pagination_loop]. unfold bind at 1.
      rewrite (scrape_data_from_page_rejected _ _ _ _ Hsrc Hsel). reflexivity.
  - cbn [pagination_loop]. unfold bind at 1.
    rewrite (scrape_data_from_page_fails _ _ _ Hsrc). reflexivity.
Qed.

Lemma boot_events_scraping : forallb is_scraping (boot_events w) = true.
Proof.
  cbv beta iota zeta delta
    [boot_events accept_cookies try_except call bind emit ret raise print sleep snd].
  destruct (cookie_clickable w) as [?|e].
  - destruct (cookie_click w) as [?|e]; [reflexivity|].
    rewrite every_exn_is_Exception. reflexivity.
  - rewrite every_exn_is_Exception. reflexivity.
Qed.

(** The cookie banner never stops the script. *)
Lemma accept_cookies_run (g : globals) :
  accept_cookies w g = (Ok tt, g, snd (accept_cookies w (mk_globals []))).
Proof.
  cbv beta iota zeta delta
    [accept_cookies try_except call bind emit ret raise print sleep snd].
  destruct (cookie_clickable w) as [?|e].
  - destruct (cookie_click w) as [?|e]; [reflexivity|].
    rewrite every_exn_is_Exception. reflexivity.
  - rewrite every_exn_is_Exception. reflexivity.
Qed.

(** The script around the loop, when the session starts. *)
Lemma run_after_start (fuel : nat) :
  starts w ->
  run w fuel =
  let '(r, g, evs) := pagination_loop w fuel 0 (mk_globals []) in
  match r with
  | Ok _ =>
      match quit w with
      | Throws e => (Raise e, g, boot_events w ++ evs ++ [Driver Quit])
      | Returns _ =>
          match write_file w with
          | Throws e =>
              (Raise e, g,
               boot_events w ++ evs
               ++ [Driver Quit;
                   ToCsv "immoscout_basel_listings.csv"
                     (Pandas.to_csv (Pandas.of_dicts (all_data g)))])
          | Returns _ => (Ok tt, g, boot_events w ++ evs ++ closing_events (all_data g))
          end
      end
  | Raise e => (Raise e, g, boot_events w ++ evs)
  | OutOfFuel => (OutOfFuel, g, boot_events w ++ evs)
  end.
Proof.
  intros (Hchrome & Hget & Hmax).
  unfold run, script, boot_events.
  cbv beta iota zeta delta [call bind emit ret raise sleep print set_all_data get_all_data].
  rewrite Hchrome, Hget, Hmax. cbv beta iota zeta.
  rewrite accept_cookies_run.
  destruct (pagination_loop w fuel 0 _) as [[r g] evs].
  destruct r as [[]|e|]; cbv beta iota zeta.
  - destruct (quit w) as [[]|e]; cbv beta iota zeta.
    + destruct (write_file w) as [[]|e]; cbv beta iota zeta;
        unfold closing_events; cbn; rewrite <- ?app_assoc; cbn;
        rewrite ?app_nil_r; reflexivity.
    + cbn; rewrite <- ?app_assoc; cbn; reflexivity.
  - cbn; rewrite <- ?app_assoc; cbn; reflexivity.
  - cbn; rewrite <- ?app_assoc; cbn; reflexivity.
Qed.

(** A run that returns went through the start, the loop and the end. *)
Lemma run_returns (fuel : nat) (g : globals) (evs : list event) :
  run w fuel = (Ok tt, g, evs) ->
  starts w
  /\ exists loop_evs,
      pagination_loop w fuel 0 (mk_globals []) = (Ok tt, g, loop_evs)
      /\ evs = boot_events w ++ loop_evs ++ closing_events (all_data g).
Proof.
  intros Hrun.
  assert (Hstart : starts w).
  { revert Hrun. unfold run, script, starts.
    cbv beta iota zeta delta [call bind emit ret raise sleep].
    destruct (chrome w) as [[]|]; [|discriminate].
    destruct (get_url w) as [[]|]; [|discriminate].
    destruct (maximize_window w) as [[]|]; [|discriminate].
    auto. }
  split; [exact Hstart|].
  rewrite (run_after_start fuel Hstart) in Hrun.
  destruct (pagination_loop w fuel 0 _) as [[r g'] loop_evs].
  destruct r as [[]|e|]; [| discriminate | discriminate].
  destruct (quit w) as [[]|]; [|discriminate].
  destruct (write_file w) as [[]|]; [|discriminate].
  injection Hrun as <- <-. exists loop_evs. split; reflexivity.
Qed.

End Scraping.

(* ================================================================== *)
(** ** The fields of a record *)

Section FieldFacts.

Context {bs : BeautifulSoup}.

Ltac in_trace := cbn; repeat (first [left; reflexivity | right]).
Ltac not_in_trace := cbn; intuition discriminate.

(** What a record holds under a field, by the replies to the selectors
    of that field, and what the trace shows of a second look-up. *)
Lemma field_of_record (listing : Tag) (d : dict) (f : field) :
  outcome listing = Ok d ->
  match primary f listing with
  | Returns (Some t) =>
      dict_get d (key f) = Some (PyStr.strip (tag_text t))
      /\ secondary_tried (tag_name f) (class_name f) (trace listing) = false
      /\ forall sel, fallback_selector f = Some sel ->
                     ~ In (SelectOne sel) (trace listing)
  | Returns None =>
      match fallback_selector f with
      | Some sel =>
          secondary_tried (tag_name f) (class_name f) (trace listing) = true
          /\ In (SelectOne sel) (trace listing)
          /\ exists t,
              tag_select_one listing sel = Returns t
              /\ dict_get d (key f)
                 = Some (match t with
                         | Some t => PyStr.strip (tag_text t)
                         | None => "N/A"
                         end)
      | None =>
          secondary_tried (tag_name f) (class_name f) (trace listing) = false
          /\ dict_get d (key f) = Some "N/A"
      end
  | Throws _ => False
  end.
Proof.
  intros H. destruct f; revert H; unfold_py; reply_cases; intros H;
    try discriminate H; injection H as <-.
  all: repeat match goal with
              | |- _ /\ _ => split
              | |- forall _, _ => intros sel [= <-]; not_in_trace
              | |- exists _, _ => eexists; split; reflexivity
              | |- In _ _ => in_trace
              | |- _ = _ => reflexivity
              end.
Qed.

End FieldFacts.

(* ================================================================== *)
(** ** The records of the extractor *)

Section RecordClaims.

Context {bs : BeautifulSoup}.

Lemma kept_from (listings : list Tag) (d : dict) :
  In d (kept listings) -> exists listing, In listing listings /\ outcome listing = Ok d.
Proof.
  unfold kept. rewrite in_flat_map. intros (listing & Hin & Hd).
  exists listing. split; [exact Hin|].
  destruct (outcome listing) as [d'| |]; cbn in Hd; [|contradiction|contradiction].
  destruct Hd as [<-|[]]. reflexivity.
Qed.

Lemma record_well_formed (listing : Tag) (d : dict) :
  outcome listing = Ok d -> well_formed listing d.
Proof.
  intros H. split; [exact (record_keys listing d H)|].
  intros f. pose proof (field_of_record listing d f H) as F.
  unfold unlocated, located, secondary.
  destruct (primary f listing) as [[t|]|e]; [| |contradiction].
  - right. exists t. split; [left; reflexivity|exact (proj1 F)].
  - destruct (fallback_selector f) as [sel|]; cbn [option_map].
    + destruct F as (_ & _ & [t|] & Ht & Hv); rewrite Ht.
      * right. exists t. split; [right; split; reflexivity|exact Hv].
      * left. split; [split; reflexivity|exact Hv].
    + left. split; [split; [reflexivity|exact I]|exact (proj2 F)].
Qed.

(** C1 (as amended). For every listing container and every one of the
    four fields, if no selector of the field finds anything in the
    container, the record the extractor produces holds the exact
    sentinel string N/A under that field. *)
Theorem sentinel_when_unlocated
    (listing : Tag) (f : field) (g g' : globals) (d : dict) (evs : list event) :
  listing_record listing g = (Ok d, g', evs) ->
  unlocated f listing ->
  dict_get d (key f) = Some "N/A".
Proof.
  intros H [Hp Hs]. rewrite listing_record_globals in H. injection H as Ho _ _.
  pose proof (field_of_record listing d f Ho) as F. rewrite Hp in F.
  unfold secondary in Hs.
  destruct (fallback_selector f) as [sel|]; cbn [option_map] in Hs.
  - destruct F as (_ & _ & t & Ht & Hv). rewrite Hs in Ht. injection Ht as <-.
    exact Hv.
  - exact (proj2 F).
Qed.

(** C2 (as amended). The look-up has two tiers for Rooms and Size only:
    the tag-and-class selector first; if it finds nothing, the second
    selector is tried, and the sentinel stands in only if that finds
    nothing either. Price and Address have the first selector alone: if
    it finds nothing, no second selector is tried and the sentinel
    stands in at once. *)
Theorem two_tiers_for_rooms_and_size
    (listing : Tag) (g g' : globals) (d : dict) (evs : list event) :
  listing_record listing g = (Ok d, g', evs) ->
  forall f,
    (forall t, primary f listing = Returns (Some t) ->
               dict_get d (key f) = Some (PyStr.strip (tag_text t)))
    /\ (forall sel, fallback_selector f = Some sel ->
                    primary f listing = Returns None ->
                    secondary_tried (tag_name f) (class_name f) evs = true
                    /\ In (SelectOne sel) evs
                    /\ exists t,
                        tag_select_one listing sel = Returns t
                        /\ dict_get d (key f)
                           = Some (match t with
                                   | Some t => PyStr.strip (tag_text t)
                                   | None => "N/A"
                                   end))
    /\ (fallback_selector f = None ->
        primary f listing = Returns None ->
        secondary_tried (tag_name f) (class_name f) evs = false
        /\ dict_get d (key f) = Some "N/A")
    /\ (fallback_selector f = None <-> f = Price \/ f = Address).
Proof.
  intros H f. rewrite listing_record_globals in H. injection H as Ho _ <-.
  pose proof (field_of_record listing d f Ho) as F.
  split; [|split; [|split; [|split]]].
  - intros t Hp. rewrite Hp in F. exact (proj1 F).
  - intros sel Hsel Hp. rewrite Hp, Hsel in F. exact F.
  - intros Hsel Hp. rewrite Hp, Hsel in F. exact F.
  - destruct f; cbn; intros Hsel; try discriminate Hsel; auto.
  - destruct f; cbn; intros [Hf|Hf]; try discriminate Hf; reflexivity.
Qed.

(** C4. Every record the extractor produces for a page has exactly the
    four fields Rooms, Size, Price, Address, and each of them holds
    either the text of an element found in the container or the
    sentinel; no field is missing or empty-handed. *)
Theorem records_have_four_fields
    (page : string) (g g' : globals) (ds : list dict) (evs : list event) :
  extract_listing_data page g = (Ok ds, g', evs) ->
  Forall (fun d => exists listing, In listing (containers page) /\ well_formed listing d) ds.
Proof.
  intros H. destruct (extract_listing_data_returns _ _ _ _ _ H) as (_ & -> & _).
  apply Forall_forall. intros d Hd.
  destruct (kept_from _ _ Hd) as (listing & Hin & Ho).
  exists listing. split; [exact Hin|exact (record_well_formed _ _ Ho)].
Qed.

(** C8. In every container in which the first selector of a field
    matches, the field holds the text of that match; the second
    selector of the field is not even looked up, whatever it would
    find. *)
Theorem primary_preferred
    (listing t : Tag) (f : field) (g g' : globals) (d : dict) (evs : list event) :
  listing_record listing g = (Ok d, g', evs) ->
  primary f listing = Returns (Some t) ->
  dict_get d (key f) = Some (PyStr.strip (tag_text t))
  /\ forall sel, fallback_selector f = Some sel -> ~ In (SelectOne sel) evs.
Proof.
  intros H Hp. rewrite listing_record_globals in H. injection H as Ho _ <-.
  pose proof (field_of_record listing d f Ho) as F. rewrite Hp in F.
  split; [exact (proj1 F)|exact (proj2 (proj2 F))].
Qed.

End RecordClaims.

(** C1, at the empty container. *)
Lemma sentinel_when_unlocated_witness :
  listing_record (bs := Dom.soup true) bare_listing (mk_globals [])
  = (Ok bare_record, mk_globals [], bare_trace)
  /\ unlocated (bs := Dom.soup true) Price bare_listing
  /\ dict_get bare_record (key Price) = Some "N/A".
Proof.
  assert (Hrun : listing_record (bs := Dom.soup true) bare_listing (mk_globals [])
                 = (Ok bare_record, mk_globals [], bare_trace))
    by (vm_compute; reflexivity).
  assert (Hun : unlocated (bs := Dom.soup true) Price bare_listing)
    by (split; vm_compute; [reflexivity|exact I]).
  split; [exact Hrun|]. split; [exact Hun|].
  exact (sentinel_when_unlocated (bs := Dom.soup true) _ _ _ _ _ _ Hrun Hun).
Defined.

(** C1 as the specification words it fails: the empty container is the
    only container of its page, none of its fields is located, and its
    record holds N/A, not the string of the specification, under each. *)
Lemma not_available_counterexample :
  containers (bs := Dom.soup true) bare_page = [bare_listing]
  /\ listing_record (bs := Dom.soup true) bare_listing (mk_globals [])
     = (Ok bare_record, mk_globals [], bare_trace)
  /\ Forall (fun f => unlocated (bs := Dom.soup true) f bare_listing
                      /\ dict_get bare_record (key f) <> Some "not available")
            [Rooms; Size; Price; Address].
Proof.
  split; [vm_compute; reflexivity|]. split; [vm_compute; reflexivity|].
  repeat constructor; try (vm_compute; reflexivity); try discriminate.
Qed.

(** C2, at the empty container: the second selector of Rooms is tried,
    Price has none to try. *)
Lemma two_tiers_for_rooms_and_size_witness :
  listing_record (bs := Dom.soup true) bare_listing (mk_globals [])
  = (Ok bare_record, mk_globals [], bare_trace)
  /\ secondary_tried (tag_name Rooms) (class_name Rooms) bare_trace = true
  /\ secondary_tried (tag_name Price) (class_name Price) bare_trace = false
  /\ dict_get bare_record (key Price) = Some "N/A".
Proof.
  assert (Hrun : listing_record (bs := Dom.soup true) bare_listing (mk_globals [])
                 = (Ok bare_record, mk_globals [], bare_trace))
    by (vm_compute; reflexivity).
  split; [exact Hrun|].
  pose proof (two_tiers_for_rooms_and_size (bs := Dom.soup true) _ _ _ _ _ Hrun) as T.
  destruct (T Rooms) as (_ & Hrooms & _).
  destruct (T Price) as (_ & _ & Hprice & _).
  split.
  - apply (Hrooms "div:contains('rooms') strong"); vm_compute; reflexivity.
  - apply Hprice; vm_compute; reflexivity.
Defined.

(** C2 as the specification words it fails: in the empty container the
    first selectors of Price and of Address find nothing, and no second
    look-up follows either of them; the two second look-ups of the
    trace are those of Rooms and Size. *)
Lemma price_and_address_single_tier_counterexample :
  listing_record (bs := Dom.soup true) bare_listing (mk_globals [])
  = (Ok bare_record, mk_globals [], bare_trace)
  /\ primary (bs := Dom.soup true) Price bare_listing = Returns None
  /\ primary (bs := Dom.soup true) Address bare_listing = Returns None
  /\ secondary_tried (tag_name Price) (class_name Price) bare_trace = false
  /\ secondary_tried (tag_name Address) (class_name Address) bare_trace = false
  /\ filter is_select_one bare_trace
     = [SelectOne "div:contains('rooms') strong";
        SelectOne "strong[title='living space']"].
Proof. repeat split; vm_compute; reflexivity. Qed.

(** C4, on the first result page. *)
Lemma records_have_four_fields_witness :
  extract_listing_data (bs := Dom.soup true) page_one (mk_globals [])
  = (Ok page_one_records, mk_globals [], page_events (bs := Dom.soup true) page_one)
  /\ Forall (fun d => exists listing,
                 In listing (containers (bs := Dom.soup true) page_one)
                 /\ well_formed (bs := Dom.soup true) listing d)
            page_one_records.
Proof.
  assert (Hrun : extract_listing_data (bs := Dom.soup true) page_one (mk_globals [])
                 = (Ok page_one_records, mk_globals [],
                    page_events (bs := Dom.soup true) page_one))
    by (vm_compute; reflexivity).
  split; [exact Hrun|].
  exact (records_have_four_fields (bs := Dom.soup true) _ _ _ _ _ Hrun).
Defined.

(** C8, in a container where both selectors of Rooms match: the record
    holds the text of the first match, not of the second. *)
Lemma primary_preferred_witness :
  listing_record (bs := Dom.soup true) both_listing (mk_globals [])
  = (Ok both_record, mk_globals [], both_trace)
  /\ primary (bs := Dom.soup true) Rooms both_listing = Returns (Some both_strong)
  /\ tag_select_one (BeautifulSoup := Dom.soup true) both_listing
       "div:contains('rooms') strong" = Returns (Some both_other)
  /\ PyStr.strip (tag_text (BeautifulSoup := Dom.soup true) both_other) = "4"
  /\ dict_get both_record (key Rooms)
     = Some (PyStr.strip (tag_text (BeautifulSoup := Dom.soup true) both_strong))
  /\ dict_get both_record (key Rooms) = Some "3.5 rooms".
Proof.
  assert (Hrun : listing_record (bs := Dom.soup true) both_listing (mk_globals [])
                 = (Ok both_record, mk_globals [], both_trace))
    by (vm_compute; reflexivity).
  assert (Hp : primary (bs := Dom.soup true) Rooms both_listing
               = Returns (Some both_strong))
    by (vm_compute; reflexivity).
  split; [exact Hrun|]. split; [exact Hp|].
  split; [vm_compute; reflexivity|]. split; [vm_compute; reflexivity|].
  split; [|reflexivity].
  exact (proj1 (primary_preferred (bs := Dom.soup true) _ _ _ _ _ _ _ Hrun Hp)).
Defined.

(* ================================================================== *)
(** ** Containers that raise, fields that miss *)

Section ContainerClaims.

Context {bs : BeautifulSoup}.



Lemma outcome_of_run (listing : Tag) (g : globals) :
  fst (fst (listing_record listing g)) = outcome listing.
Proof. rewrite listing_record_globals. reflexivity. Qed.




(** C10 (as amended). The extractor is self-contained: from any two
    states of the globals it ends the same way, with the same records,
    and prints the same lines; it leaves the globals as they were,
    whether it returns or raises; on a page the parser and the container
    query accept it returns, twice the same records when called twice in
    a row, and the empty list when the page has no listing container;
    on a page the parser rejects it raises the exception of the parser,
    having printed nothing. *)
Theorem extractor_self_contained (page : string) (g1 g2 : globals) :
  fst (fst (extract_listing_data page g1)) = fst (fst (extract_listing_data page g2))
  /\ snd (extract_listing_data page g1) = snd (extract_listing_data page g2)
  /\ snd (fst (extract_listing_data page g1)) = g1
  /\ (accepted page ->
      exists ds evs,
        (first <- extract_listing_data page ;;
         second <- extract_listing_data page ;;
         ret (first, second)) g1
        = (Ok (ds, ds), g1, evs))
  /\ (selected page = Returns [] ->
      extract_listing_data page g1
      = (Ok [], g1, [Print "Found 0 listings on the page."]))
  /\ (forall e,
        html_parser page = Throws e ->
        extract_listing_data page g1 = (Raise e, g1, [])).
Proof.
  split; [|split; [|split; [|split; [|split]]]].
  - rewrite !extract_listing_data_run. destruct (selected page); reflexivity.
  - rewrite !extract_listing_data_run. destruct (selected page); reflexivity.
  - rewrite extract_listing_data_run. destruct (selected page); reflexivity.
  - intros Hacc.
    exists (kept (containers page)), (page_events page ++ page_events page ++ []).
    unfold bind. rewrite !(extract_listing_data_accepted page _ Hacc). reflexivity.
  - intros Hnone. rewrite extract_listing_data_run. unfold page_events, containers.
    rewrite Hnone. reflexivity.
  - intros e Hrej. rewrite extract_listing_data_run. unfold selected.
    rewrite Hrej. reflexivity.
Qed.

End ContainerClaims.


(** C10, on a page without listing containers and on markup the parser
    rejects. *)
Lemma extractor_self_contained_witness :
  selected (bs := Dom.soup true) no_results_page = Returns []
  /\ extract_listing_data (bs := Dom.soup true) no_results_page
       (mk_globals page_one_records)
     = (Ok [], mk_globals page_one_records, [Print "Found 0 listings on the page."])
  /\ html_parser (BeautifulSoup := Dom.soup true) oops_page = Throws Dom.rejected_markup
  /\ extract_listing_data (bs := Dom.soup true) oops_page (mk_globals page_one_records)
     = (Raise Dom.rejected_markup, mk_globals page_one_records, []).
Proof.
  assert (Hnone : selected (bs := Dom.soup true) no_results_page = Returns [])
    by (vm_compute; reflexivity).
  assert (Hrej : html_parser (BeautifulSoup := Dom.soup true) oops_page
                 = Throws Dom.rejected_markup)
    by (vm_compute; reflexivity).
  split; [exact Hnone|]. split.
  - destruct (extractor_self_contained (bs := Dom.soup true) no_results_page
                (mk_globals page_one_records) (mk_globals []))
      as (_ & _ & _ & _ & Hempty & _).
    exact (Hempty Hnone).
  - split; [exact Hrej|].
    destruct (extractor_self_contained (bs := Dom.soup true) oops_page
                (mk_globals page_one_records) (mk_globals []))
      as (_ & _ & _ & _ & _ & Hraise).
    exact (Hraise _ Hrej).
Defined.

(** C10 as the specification words it fails: a marked section with an
    unknown keyword is markup without a listing container, the parser
    rejects it, and the extractor, which calls the parser outside its
    [try], raises instead of returning the empty list. *)
Lemma rejected_markup_counterexample :
  PyStr.contains "result-list-item" oops_page = false
  /\ html_parser (BeautifulSoup := Dom.soup true) oops_page = Throws Dom.rejected_markup
  /\ extract_listing_data (bs := Dom.soup true) oops_page (mk_globals [])
     = (Raise Dom.rejected_markup, mk_globals [], [])
  /\ fst (fst (extract_listing_data (bs := Dom.soup true) oops_page (mk_globals [])))
     <> Ok [].
Proof.
  split; [vm_compute; reflexivity|]. split; [vm_compute; reflexivity|].
  split; [vm_compute; reflexivity|]. vm_compute. discriminate.
Qed.

(* ================================================================== *)
(** ** The loop, the session and the file *)

Lemma count_app (p : event -> bool) (xs ys : list event) :
  count p (xs ++ ys) = count p xs + count p ys.
Proof. unfold count. rewrite filter_app, length_app. reflexivity. Qed.

Lemma scraping_counts (evs : list event) :
  forallb is_scraping evs = true -> count is_quit evs = 0 /\ count is_to_csv evs = 0.
Proof.
  unfold count. induction evs as [|ev evs IH]; [split; reflexivity|].
  cbn [forallb filter]. intros H. apply andb_true_iff in H as [Hev Hevs].
  unfold is_scraping in Hev. apply andb_true_iff in Hev as [Hq Hc].
  apply negb_true_iff in Hq, Hc. rewrite Hq, Hc. exact (IH Hevs).
Qed.

Section RunClaims.

Context {bs : BeautifulSoup}.

Lemma extracted_is_kept (page : string) : extracted page = kept (containers page).
Proof.
  unfold extracted, containers. rewrite extract_listing_data_run.
  unfold containers. destruct (selected page); reflexivity.
Qed.

Lemma extracted_count_of_visit (v : Visit) :
  extracted_count v = length (page_records v).
Proof.
  unfold extracted_count, page_records.
  destruct (page_source v); [rewrite extracted_is_kept|]; reflexivity.
Qed.

Lemma records_of_pages_count (w : World) (k m : nat) :
  length (records_of_pages w k m)
  = list_sum (map (fun i => extracted_count (visit w i)) (seq k m)).
Proof.
  unfold records_of_pages. induction (seq k m) as [|i rest IH]; [reflexivity|].
  cbn [flat_map map list_sum]. rewrite length_app, IH, extracted_count_of_visit.
  reflexivity.
Qed.

Lemma last_page_times_out (v : Visit) :
  last_page v ->
  exists e, pagination_outcome v = Throws e /\ isinstance e TimeoutException = true.
Proof.
  intros (_ & Hscroll & e & Hwait & He). exists e. split; [|exact He].
  unfold pagination_outcome. rewrite Hscroll, Hwait. reflexivity.
Qed.

(** C6. When the wait for the next-page control runs out on the page
    [n], after [n] pages that turned over, the loop ends: it returns,
    raising nothing, as soon as it has fuel for [n + 1] pages; its last
    line says that the last page is reached; the run goes on to its end;
    and the records accumulated are those of the pages visited, their
    number the sum of the per-page extracted counts. *)
Theorem timeout_ends_pagination (w : World) (n fuel : nat) :
  (forall i, i < n -> turns_over (visit w i)) ->
  last_page (visit w n) ->
  n < fuel ->
  (forall g, exists evs,
      pagination_loop w fuel 0 g
      = (Ok tt, mk_globals (all_data g ++ records_of_pages w 0 (S n)),
         evs ++ [Print "Reached the last page."]))
  /\ (starts w -> finishes w ->
      exists evs, run w fuel = (Ok tt, mk_globals (records_of_pages w 0 (S n)), evs))
  /\ length (records_of_pages w 0 (S n))
     = list_sum (map (fun i => extracted_count (visit w i)) (seq 0 (S n))).
Proof.
  intros Hturn Hlast Hfuel.
  destruct (last_page_times_out _ Hlast) as (e & Hout & He).
  assert (Hloop : forall g,
             pagination_loop w fuel 0 g
             = (Ok tt, mk_globals (all_data g ++ records_of_pages w 0 (S n)),
                events_of_pages w 0 (S n) ++ [Print "Reached the last page."])).
  { intros g. rewrite (loop_run w n 0 fuel g e Hfuel).
    - rewrite He. reflexivity.
    - intros i Hi. apply Hturn. lia.
    - exact (proj1 Hlast).
    - exact Hout. }
  split; [|split].
  - intros g. eexists. apply Hloop.
  - intros Hstart (Hquit & Hwrite). rewrite (run_after_start w fuel Hstart).
    rewrite Hloop, Hquit, Hwrite. cbn [all_data app]. eexists. reflexivity.
  - apply records_of_pages_count.
Qed.


(** C9. On a run that completes, the session is closed exactly once:
    after every event of the start and of the loop, none of which
    closes the session or writes the file, and right before the one
    writing of the file, which only the closing line follows. *)
Theorem session_closed_once_before_writing
    (w : World) (fuel : nat) (g : globals) (evs : list event) :
  run w fuel = (Ok tt, g, evs) ->
  exists content,
    evs = (boot_events w ++ snd (pagination_loop w fuel 0 (mk_globals [])))
          ++ [Driver Quit;
              ToCsv "immoscout_basel_listings.csv" content;
              Print "Scraping completed. Data saved to immoscout_basel_listings.csv."]
    /\ forallb is_scraping
         (boot_events w ++ snd (pagination_loop w fuel 0 (mk_globals []))) = true
    /\ count is_quit evs = 1
    /\ count is_to_csv evs = 1.
Proof.
  intros Hrun. destruct (run_returns w fuel g evs Hrun) as (_ & loop_evs & Hloop & ->).
  rewrite Hloop. cbn [snd].
  assert (Hquiet : forallb is_scraping (boot_events w ++ loop_evs) = true).
  { rewrite forallb_app, boot_events_scraping.
    pose proof (loop_scraping w fuel 0 (mk_globals [])) as H.
    rewrite Hloop in H. exact H. }
  exists (Pandas.to_csv (Pandas.of_dicts (all_data g))).
  split; [rewrite <- app_assoc; reflexivity|].
  split; [exact Hquiet|].
  destruct (scraping_counts _ Hquiet) as [Hq Hc].
  replace (boot_events w ++ loop_evs ++ closing_events (all_data g))
    with ((boot_events w ++ loop_evs) ++ closing_events (all_data g))
    by (rewrite app_assoc; reflexivity).
  split.
  - rewrite (count_app is_quit (boot_events w ++ loop_evs)), Hq. reflexivity.
  - rewrite (count_app is_to_csv (boot_events w ++ loop_evs)), Hc. reflexivity.
Qed.

End RunClaims.

(** In the document model: the page of a visit loads. *)
Ltac page_loads src :=
  exists src; split;
  [reflexivity
  |exists (containers (bs := Dom.soup true) src); vm_compute; reflexivity].

(** C6, on two result pages: the first turns over, on the second the
    wait runs out; the run ends with the three records of the two
    pages, two from the first and one from the second. *)
Lemma timeout_ends_pagination_witness :
  (forall i, i < 1 -> turns_over (bs := Dom.soup true) (visit two_pages i))
  /\ last_page (bs := Dom.soup true) (visit two_pages 1)
  /\ records_of_pages (bs := Dom.soup true) two_pages 0 2
     = page_one_records ++ page_two_records
  /\ fst (run (bs := Dom.soup true) two_pages 2)
     = (Ok tt, mk_globals (records_of_pages (bs := Dom.soup true) two_pages 0 2))
  /\ length (records_of_pages (bs := Dom.soup true) two_pages 0 2)
     = list_sum (map (fun i => extracted_count (bs := Dom.soup true) (visit two_pages i))
                     (seq 0 2)).
Proof.
  assert (Hturn : forall i, i < 1 ->
                    turns_over (bs := Dom.soup true) (visit two_pages i)).
  { intros i Hi. assert (i = 0) as -> by lia.
    split; [page_loads page_one|reflexivity]. }
  assert (Hlast : last_page (bs := Dom.soup true) (visit two_pages 1)).
  { split; [page_loads page_two|].
    split; [reflexivity|]. exists timed_out. split; reflexivity. }
  assert (Hfuel : 1 < 2) by lia.
  destruct (timeout_ends_pagination (bs := Dom.soup true) two_pages 1 2
              Hturn Hlast Hfuel) as (_ & Hrun & Hcount).
  split; [exact Hturn|]. split; [exact Hlast|].
  split; [vm_compute; reflexivity|]. split; [|exact Hcount].
  destruct Hrun as [evs Hrun]; [repeat split|repeat split|].
  rewrite Hrun. reflexivity.
Defined.



(** C9, on the run over two result pages. *)
Lemma session_closed_once_before_writing_witness :
  run (bs := Dom.soup true) two_pages 5
  = (Ok tt, mk_globals (page_one_records ++ page_two_records),
     snd (run (bs := Dom.soup true) two_pages 5))
  /\ exists content,
      snd (run (bs := Dom.soup true) two_pages 5)
      = (boot_events two_pages
         ++ snd (pagination_loop (bs := Dom.soup true) two_pages 5 0 (mk_globals [])))
        ++ [Driver Quit;
            ToCsv "immoscout_basel_listings.csv" content;
            Print "Scraping completed. Data saved to immoscout_basel_listings.csv."]
      /\ forallb is_scraping
           (boot_events two_pages
            ++ snd (pagination_loop (bs := Dom.soup true) two_pages 5 0 (mk_globals [])))
         = true
      /\ count is_quit (snd (run (bs := Dom.soup true) two_pages 5)) = 1
      /\ count is_to_csv (snd (run (bs := Dom.soup true) two_pages 5)) = 1.
Proof.
  assert (Hrun : run (bs := Dom.soup true) two_pages 5
                 = (Ok tt, mk_globals (page_one_records ++ page_two_records),
                    snd (run (bs := Dom.soup true) two_pages 5)))
    by (vm_compute; reflexivity).
  split; [exact Hrun|].
  exact (session_closed_once_before_writing (bs := Dom.soup true) two_pages 5 _ _ Hrun).
Defined.

(* ================================================================== *)
(** ** The file *)

Lemma cells_of_record (d : dict) :
  keys d = four_keys ->
  map Pandas.cell_text (map (dict_get d) four_keys) = map snd d.
Proof.
  destruct d as [|[k1 v1] [|[k2 v2] [|[k3 v3] [|[k4 v4] [|? ?]]]]];
    try discriminate.
  unfold keys. cbn [map fst]. intros [= -> -> -> ->]. reflexivity.
Qed.

Lemma add_keys_same (d : dict) : keys d = four_keys -> Pandas.add_keys four_keys d = four_keys.
Proof. unfold Pandas.add_keys. intros ->. reflexivity. Qed.

Lemma add_keys_first (d : dict) : keys d = four_keys -> Pandas.add_keys [] d = four_keys.
Proof. unfold Pandas.add_keys. intros ->. reflexivity. Qed.

Lemma columns_of_records (d : dict) (data : list dict) :
  Forall (fun d => keys d = four_keys) (d :: data) ->
  Pandas.columns (Pandas.of_dicts (d :: data)) = four_keys.
Proof.
  intros H. inversion H as [|? ? Hd Hdata]; subst.
  unfold Pandas.of_dicts. cbn [Pandas.columns fold_left]. rewrite (add_keys_first d Hd).
  clear H Hd. induction Hdata as [|d' data' Hd' _ IH]; [reflexivity|].
  cbn [fold_left]. rewrite (add_keys_same d' Hd'). exact IH.
Qed.

(** The rows written for a non-empty list of records with the four
    keys: the header, then a row per record, numbered from 0, in the
    order of the list. *)
Lemma csv_rows_of_records (d : dict) (data : list dict) :
  Forall (fun d => keys d = four_keys) (d :: data) ->
  Pandas.csv_rows (Pandas.of_dicts (d :: data))
  = ["" ; "Rooms"; "Size"; "Price"; "Address"]
    :: map (fun '(i, d) => PyStr.of_nat i :: map snd d)
         (combine (seq 0 (length (d :: data))) (d :: data)).
Proof.
  intros H. unfold Pandas.csv_rows. rewrite (columns_of_records d data H).
  f_equal. pose proof (columns_of_records d data H) as Hcols.
  unfold Pandas.of_dicts in *. cbn [Pandas.columns Pandas.index Pandas.values] in *.
  rewrite Hcols. clear Hcols.
  generalize (d :: data) H 0. clear d data H.
  induction 1 as [|d data Hd _ IH]; intros k; [reflexivity|].
  cbn [length seq map combine]. rewrite IH, (cells_of_record d Hd). reflexivity.
Qed.

Section FileClaims.

Context {bs : BeautifulSoup}.
Variable w : World.

Lemma kept_shape (listings : list Tag) :
  Forall (fun d => keys d = four_keys) (kept listings).
Proof.
  apply Forall_forall. intros d Hd. destruct (kept_from _ _ Hd) as (l & _ & Ho).
  exact (record_keys l d Ho).
Qed.

(** Every record the loop accumulates has the four keys. *)
Lemma loop_keeps_shape (fuel : nat) :
  forall (n : nat) (g : globals),
    Forall (fun d => keys d = four_keys) (all_data g) ->
    Forall (fun d => keys d = four_keys)
           (all_data (snd (fst (pagination_loop w fuel n g)))).
Proof.
  induction fuel as [|fuel IH]; intros n g Hg; [exact Hg|].
  destruct (page_source (visit w n)) as [src|e] eqn:Hsrc.
  - assert (Hg' : Forall (fun d => keys d = four_keys)
                         (all_data (mk_globals (all_data g ++ kept (containers src)))))
      by (apply Forall_app; split; [exact Hg|apply kept_shape]).
    destruct (selected src) as [listings|e] eqn:Hsel.
    + assert (Hacc : accepted src) by (exists listings; exact Hsel).
      destruct (pagination_outcome (visit w n)) as [[]|e] eqn:Hnext.
      * rewrite (loop_turns_over w _ _ _ _ Hsrc Hacc Hnext).
        specialize (IH (S n) _ Hg').
        destruct (pagination_loop w fuel (S n) _) as [[r g'] evs]. exact IH.
      * rewrite (loop_stops w _ _ _ _ _ Hsrc Hacc Hnext). exact Hg'.
    + cbn [pagination_loop]. unfold bind at 1.
      rewrite (scrape_data_from_page_rejected _ _ _ _ Hsrc Hsel). exact Hg.
  - cbn [pagination_loop]. unfold bind at 1.
    rewrite (scrape_data_from_page_fails _ _ _ Hsrc). exact Hg.
Qed.

(** X11. The file of a run that completes with at least one record: its
    columns are the index, Rooms, Size, Price, Address; its rows are the
    accumulated records, in their order, numbered from 0. *)
Lemma file_of_a_run_with_records (fuel : nat) (g : globals) (evs : list event) :
  run w fuel = (Ok tt, g, evs) ->
  all_data g <> [] ->
  filter is_to_csv evs
  = [ToCsv "immoscout_basel_listings.csv"
       (String.concat ""
          (map Pandas.csv_row
             (["" ; "Rooms"; "Size"; "Price"; "Address"]
              :: map (fun '(i, d) => PyStr.of_nat i :: map snd d)
                   (combine (seq 0 (length (all_data g))) (all_data g)))))].
Proof.
  intros Hrun Hsome.
  destruct (run_returns w fuel g evs Hrun) as (_ & loop_evs & Hloop & ->).
  assert (Hshape : Forall (fun d => keys d = four_keys) (all_data g)).
  { pose proof (loop_keeps_shape fuel 0 (mk_globals []) (Forall_nil _)) as H.
    rewrite Hloop in H. exact H. }
  assert (Hquiet : forallb is_scraping (boot_events w ++ loop_evs) = true).
  { rewrite forallb_app, boot_events_scraping.
    pose proof (loop_scraping w fuel 0 (mk_globals [])) as H.
    rewrite Hloop in H. exact H. }
  rewrite app_assoc, filter_app.
  assert (Hnone : filter is_to_csv (boot_events w ++ loop_evs) = []).
  { apply length_zero_iff_nil. exact (proj2 (scraping_counts _ Hquiet)). }
  rewrite Hnone. cbn [app closing_events filter is_to_csv].
  destruct (all_data g) as [|d data]; [contradiction|].
  unfold Pandas.to_csv. rewrite (csv_rows_of_records d data Hshape). reflexivity.
Qed.

End FileClaims.

(** The run over two result pages, end to end: three records, the
    third without an address, and the file with its header and three
    numbered rows. *)
Example two_pages_end_to_end :
  fst (run (bs := Dom.soup true) two_pages 2)
  = (Ok tt, mk_globals (page_one_records ++ page_two_records))
  /\ filter is_to_csv (snd (run (bs := Dom.soup true) two_pages 2))
     = [ToCsv "immoscout_basel_listings.csv" two_pages_csv]
  /\ fst (fst (run (bs := Dom.soup true) two_pages 1)) = OutOfFuel.
Proof. repeat split; vm_compute; reflexivity. Qed.

(** C7, where the code departs from it: on a site that shows no
    listing the run completes and writes the file, but the frame built
    from the empty list has no columns, so the file holds the empty
    index label alone, not the header of index, Rooms, Size, Price,
    Address. *)
Theorem no_listings_no_columns :
  fst (run (bs := Dom.soup true) empty_site 1) = (Ok tt, mk_globals [])
  /\ filter is_to_csv (snd (run (bs := Dom.soup true) empty_site 1))
     = [ToCsv "immoscout_basel_listings.csv"
          (PyStr.dquote ++ PyStr.dquote ++ Pandas.newline)]
  /\ Pandas.columns (Pandas.of_dicts []) = []
  /\ Pandas.csv_rows (Pandas.of_dicts []) = [[""]]
  /\ Pandas.csv_rows (Pandas.of_dicts page_two_records)
     = [[""; "Rooms"; "Size"; "Price"; "Address"];
        ["0"; "4.5"; "110 m2"; "CHF 3000"; "N/A"]].
Proof. repeat split; vm_compute; reflexivity. Qed.

(* ================================================================== *)
(** ** Further properties: the extractor *)

Section StripFacts.

Lemma rstrip_rstrip (s : string) : PyStr.rstrip (PyStr.rstrip s) = PyStr.rstrip s.
Proof.
  induction s as [|a r IH]; [reflexivity|].
  cbn [PyStr.rstrip]. cbv zeta.
  destruct (PyStr.is_one_space (String a (PyStr.rstrip r))) eqn:Hone; [reflexivity|].
  cbn [PyStr.rstrip]. cbv zeta. rewrite IH, Hone. reflexivity.
Qed.

Lemma lstrip_unspaced (s : string) : PyStr.space_width s = 0 -> PyStr.lstrip s = s.
Proof.
  destruct s as [|a [|b [|c r]]]; cbn [PyStr.space_width PyStr.lstrip];
    try reflexivity;
    destruct (PyStr.is_ascii_space a); try discriminate; try reflexivity;
    destruct (PyStr.is_space2 a b); try discriminate; try reflexivity;
    destruct (PyStr.is_space3 a b c); try discriminate; reflexivity.
Qed.

Lemma lstrip_is_unspaced : forall s, PyStr.space_width (PyStr.lstrip s) = 0.
Proof.
  fix IH 1. intros [|a r]; [reflexivity|].
  cbn [PyStr.lstrip]. destruct (PyStr.is_ascii_space a) eqn:Ha; [apply IH|].
  destruct r as [|b r2]; [cbn; rewrite Ha; reflexivity|].
  destruct (PyStr.is_space2 a b) eqn:Hb; [apply IH|].
  destruct r2 as [|c r3]; [cbn; rewrite Ha, Hb; reflexivity|].
  destruct (PyStr.is_space3 a b c) eqn:Hc; [apply IH|].
  cbn. rewrite Ha, Hb, Hc. reflexivity.
Qed.

Lemma rstrip_prefix (s : string) : exists rest, s = (PyStr.rstrip s ++ rest)%string.
Proof.
  induction s as [|a r [rest IH]]; [exists ""; reflexivity|].
  cbn [PyStr.rstrip]. cbv zeta.
  destruct (PyStr.is_one_space (String a (PyStr.rstrip r))).
  - exists (String a r). reflexivity.
  - exists rest. cbn [append]. rewrite <- IH. reflexivity.
Qed.

Lemma space_width_prefix (s rest : string) :
  PyStr.space_width s <> 0 -> PyStr.space_width (s ++ rest)%string = PyStr.space_width s.
Proof.
  destruct s as [|a [|b [|c r]]]; cbn [PyStr.space_width append];
    try congruence;
    destruct (PyStr.is_ascii_space a); try congruence;
    try (destruct rest as [|? [|? ?]]; congruence);
    destruct (PyStr.is_space2 a b); try congruence;
    destruct rest; congruence.
Qed.

Lemma rstrip_unspaced (s : string) :
  PyStr.space_width s = 0 -> PyStr.space_width (PyStr.rstrip s) = 0.
Proof.
  intros Hs. destruct (rstrip_prefix s) as [rest Hrest].
  destruct (Nat.eq_dec (PyStr.space_width (PyStr.rstrip s)) 0) as [H|H]; [exact H|].
  rewrite Hrest in Hs. rewrite (space_width_prefix _ rest H) in Hs. contradiction.
Qed.

Lemma lstrip_strip (s : string) : PyStr.lstrip (PyStr.strip s) = PyStr.strip s.
Proof.
  unfold PyStr.strip. apply lstrip_unspaced, rstrip_unspaced, lstrip_is_unspaced.
Qed.

Lemma strip_trimmed (s : string) : trimmed (PyStr.strip s).
Proof.
  split; [apply lstrip_strip|]. unfold PyStr.strip. apply rstrip_rstrip.
Qed.

End StripFacts.

(** White space beyond Latin-1 is stripped, and a byte that only looks
    like a no-break space inside a letter is not. *)
Example strip_beyond_latin1 :
  PyStr.strip thin_spaced = "CHF 2100" /\ PyStr.strip voila = voila.
Proof. split; vm_compute; reflexivity. Qed.

Section ExtractorExtras.

Context {bs : BeautifulSoup}.

Lemma trace_no_error_line (listing : Tag) : count is_error_line (trace listing) = 0.
Proof. unfold_py. reply_cases. all: reflexivity. Qed.

Lemma listing_events_errors (listing : Tag) :
  count is_error_line (listing_events listing)
  = match outcome listing with Raise _ => 1 | _ => 0 end.
Proof.
  unfold listing_events. rewrite count_app, trace_no_error_line.
  destruct (outcome listing) as [d|e|]; [reflexivity| |reflexivity].
  unfold count. cbn [filter is_error_line].
  destruct (exn_msg e); reflexivity.
Qed.

Lemma kept_and_errors (listings : list Tag) :
  length (kept listings) + count is_error_line (flat_map listing_events listings)
  = length listings.
Proof.
  induction listings as [|listing rest IH]; [reflexivity|].
  cbn [flat_map length]. rewrite count_app, listing_events_errors.
  change (kept (listing :: rest))
    with (match outcome listing with Ok d => [d] | _ => [] end ++ kept rest).
  rewrite length_app. pose proof (outcome_terminates listing) as Hfuel.
  destruct (outcome listing); [| |congruence]; cbn [length]; lia.
Qed.

(** X1. The extractor raises only what the parser or the container
    query throws, and then at once: nothing is printed and the globals
    are as before. On a page they accept it returns, whatever the
    look-ups do in any container: it announces the number of containers
    and returns one record for each container but those for which it
    printed the diagnostic of its handler. *)
Theorem every_container_accounted_for (page : string) (g : globals) :
  match selected page with
  | Returns listings =>
      exists ds evs,
        extract_listing_data page g = (Ok ds, g, evs)
        /\ hd_error evs
           = Some (Print ("Found " ++ PyStr.of_nat (length listings)
                          ++ " listings on the page."))
        /\ length ds + count is_error_line evs = length listings
  | Throws e => extract_listing_data page g = (Raise e, g, [])
  end.
Proof.
  rewrite extract_listing_data_run. unfold page_events, containers.
  destruct (selected page) as [listings|e]; [|reflexivity].
  eexists. eexists. split; [reflexivity|]. split; [reflexivity|].
  change (count is_error_line (?ev :: ?evs)) with (count is_error_line evs).
  apply kept_and_errors.
Qed.

(** The records of a page have the four keys and trimmed values. *)
Lemma kept_trimmed (listings : list Tag) :
  Forall (fun d => keys d = four_keys
                   /\ forall f, exists v, dict_get d (key f) = Some v /\ trimmed v)
         (kept listings).
Proof.
  apply Forall_forall. intros d Hd.
  destruct (kept_from _ _ Hd) as (listing & _ & Ho).
  destruct (record_well_formed listing d Ho) as [Hkeys Hfields].
  split; [exact Hkeys|]. intros f.
  destruct (Hfields f) as [[_ Hv]|(t & _ & Hv)].
  - exists "N/A". split; [exact Hv|split; reflexivity].
  - eexists. split; [exact Hv|apply strip_trimmed].
Qed.

(** X2. Every value of every record the extractor returns is free of
    white space at both ends. *)
Theorem values_are_trimmed
    (page : string) (g g' : globals) (ds : list dict) (evs : list event) :
  extract_listing_data page g = (Ok ds, g', evs) ->
  Forall (fun d => forall f, exists v, dict_get d (key f) = Some v /\ trimmed v) ds.
Proof.
  intros H. destruct (extract_listing_data_returns _ _ _ _ _ H) as (_ & -> & _).
  eapply Forall_impl; [|apply kept_trimmed].
  intros d [_ Hd]. exact Hd.
Qed.

(** X3. A container gives a record exactly when the look-ups of all
    four fields return; when it raises, the exception is that of the
    first field, in the order Rooms, Size, Price, Address, whose
    look-ups throw, and the fields before it had been found or given
    the sentinel. *)
Theorem record_iff_lookups_return (listing : Tag) (g : globals) :
  ((exists d, fst (fst (listing_record listing g)) = Ok d)
   <-> forall f, exists v, field_alone f listing = Returns v)
  /\ forall e,
      fst (fst (listing_record listing g)) = Raise e ->
      exists f,
        field_alone f listing = Throws e
        /\ forall f', position f' < position f ->
                      exists v, field_alone f' listing = Returns v.
Proof.
  rewrite outcome_of_run, outcome_by_field.
  destruct (field_alone Rooms listing) as [vr|er] eqn:Hr.
  2:{ split.
      - split; [intros [d Hd]; discriminate Hd|].
        intros H. destruct (H Rooms) as [v Hv]. congruence.
      - intros e [= <-]. exists Rooms. split; [exact Hr|].
        intros f' Hlt. destruct f'; cbn in Hlt; lia. }
  destruct (field_alone Size listing) as [vs|es] eqn:Hs.
  2:{ split.
      - split; [intros [d Hd]; discriminate Hd|].
        intros H. destruct (H Size) as [v Hv]. congruence.
      - intros e [= <-]. exists Size. split; [exact Hs|].
        intros f' Hlt. destruct f'; cbn in Hlt; try lia; eauto. }
  destruct (field_alone Price listing) as [vp|ep] eqn:Hp.
  2:{ split.
      - split; [intros [d Hd]; discriminate Hd|].
        intros H. destruct (H Price) as [v Hv]. congruence.
      - intros e [= <-]. exists Price. split; [exact Hp|].
        intros f' Hlt. destruct f'; cbn in Hlt; try lia; eauto. }
  destruct (field_alone Address listing) as [va|ea] eqn:Ha.
  2:{ split.
      - split; [intros [d Hd]; discriminate Hd|].
        intros H. destruct (H Address) as [v Hv]. congruence.
      - intros e [= <-]. exists Address. split; [exact Ha|].
        intros f' Hlt. destruct f'; cbn in Hlt; try lia; eauto. }
  split.
  - split; [|intros _; eexists; reflexivity].
    intros _ f. destruct f; eauto.
  - intros e He. discriminate He.
Qed.

End ExtractorExtras.

(** X2, on the first result page, whose first address comes with
    spaces around it in the markup. *)
Lemma values_are_trimmed_witness :
  extract_listing_data (bs := Dom.soup true) page_one (mk_globals [])
  = (Ok page_one_records, mk_globals [], page_events (bs := Dom.soup true) page_one)
  /\ Forall (fun d => forall f, exists v, dict_get d (key f) = Some v /\ trimmed v)
            page_one_records.
Proof.
  assert (Hrun : extract_listing_data (bs := Dom.soup true) page_one (mk_globals [])
                 = (Ok page_one_records, mk_globals [],
                    page_events (bs := Dom.soup true) page_one))
    by (vm_compute; reflexivity).
  split; [exact Hrun|].
  exact (values_are_trimmed (bs := Dom.soup true) _ _ _ _ _ Hrun).
Defined.

(* ================================================================== *)
(** ** Further properties: the script *)

Lemma scraping_no_file (evs : list event) :
  forallb is_scraping evs = true -> filter is_to_csv evs = [].
Proof.
  intros H. apply length_zero_iff_nil. exact (proj2 (scraping_counts evs H)).
Qed.

Lemma count_none (p q : event -> bool) (evs : list event) :
  (forall ev, p ev = true -> q ev = true) ->
  forallb (fun ev => negb (q ev)) evs = true ->
  count p evs = 0.
Proof.
  intros Hpq. unfold count. induction evs as [|ev evs IH]; [reflexivity|].
  cbn [forallb filter]. intros H. apply andb_true_iff in H as [Hev Hevs].
  destruct (p ev) eqn:Hp.
  - rewrite (Hpq ev Hp) in Hev. discriminate Hev.
  - exact (IH Hevs).
Qed.

Section ScriptExtras.

Context {bs : BeautifulSoup}.

Lemma trace_no_driver (listing : Tag) :
  forallb (fun ev => negb (is_driver ev)) (trace listing) = true.
Proof. unfold_py. reply_cases. all: reflexivity. Qed.

Lemma page_events_no_driver (page : string) :
  forallb (fun ev => negb (is_driver ev)) (page_events page) = true.
Proof.
  unfold page_events. cbn [forallb is_driver negb andb].
  induction (containers page) as [|listing rest IH]; [reflexivity|].
  cbn [flat_map]. rewrite forallb_app, IH, andb_true_r.
  unfold listing_events. rewrite forallb_app, trace_no_driver.
  destruct (outcome listing); reflexivity.
Qed.

Lemma page_source_read_once (v : Visit) : count is_page_source (visit_events v) = 1.
Proof.
  unfold visit_events.
  change (count is_page_source (Driver PageSource :: ?evs))
    with (S (count is_page_source evs)).
  f_equal. destruct (page_source v) as [src|e]; [|reflexivity].
  destruct (selected src); [|reflexivity].
  rewrite count_app.
  rewrite (count_none is_page_source is_driver (page_events src));
    [|intros [] H; try discriminate H; reflexivity|apply page_events_no_driver].
  cbv beta iota zeta delta [next_page_events next_page call bind emit ret raise sleep snd].
  destruct (scroll v); [|reflexivity].
  destruct (next_clickable v); [|reflexivity].
  destruct (next_click v); [|reflexivity].
  destruct (listings_present v); reflexivity.
Qed.

(** A page that loads is left by one click exactly when the scroll, the
    wait for the control and the click return. *)
Lemma clicked_once (v : Visit) (src : string) :
  page_source v = Returns src ->
  accepted src ->
  scroll v = Returns tt ->
  next_clickable v = Returns tt ->
  count is_click (visit_events v) = 1.
Proof.
  intros Hsrc Hacc Hscroll Hwait. rewrite (visit_events_loaded v src Hsrc Hacc).
  change (count is_click (Driver PageSource :: ?evs)) with (count is_click evs).
  rewrite count_app.
  rewrite (count_none is_click is_driver (page_events src));
    [|intros [] H; try discriminate H; reflexivity|apply page_events_no_driver].
  cbv beta iota zeta delta [next_page_events next_page call bind emit ret raise sleep snd].
  rewrite Hscroll, Hwait.
  destruct (next_click v); [|reflexivity].
  destruct (listings_present v); reflexivity.
Qed.

Lemma turns_over_clicked (v : Visit) :
  turns_over v -> count is_click (visit_events v) = 1.
Proof.
  intros [(src & Hsrc & Hacc) Hout]. unfold pagination_outcome in Hout.
  destruct (scroll v) as [[]|] eqn:Hscroll; [|discriminate Hout].
  destruct (next_clickable v) as [[]|] eqn:Hwait; [|discriminate Hout].
  exact (clicked_once v src Hsrc Hacc Hscroll Hwait).
Qed.

Lemma count_events_of_pages (p : event -> bool) (w : World) (m : nat) :
  forall k,
    (forall i, k <= i < k + m -> count p (visit_events (visit w i)) = 1) ->
    count p (events_of_pages w k m) = m.
Proof.
  unfold events_of_pages. induction m as [|m IH]; intros k H; [reflexivity|].
  cbn [seq flat_map]. rewrite count_app, (H k ltac:(lia)), IH; [reflexivity|].
  intros i Hi. apply H. lia.
Qed.

Lemma start_failure_none (w : World) : start_failure w = None -> starts w.
Proof.
  unfold start_failure, starts.
  destruct (chrome w) as [[]|]; [|discriminate].
  destruct (get_url w) as [[]|]; [|discriminate].
  destruct (maximize_window w) as [[]|]; [|discriminate].
  auto.
Qed.

(** A script that fails before the cookie banner ends there. *)
Lemma run_not_started (w : World) (fuel : nat) (e : exn) (evs : list event) :
  start_failure w = Some (e, evs) ->
  run w fuel = (Raise e, mk_globals [], evs)
  /\ forallb is_scraping evs = true.
Proof.
  unfold start_failure, run, script.
  cbv beta iota zeta delta [call bind emit ret raise sleep].
  destruct (chrome w) as [[]|]; [|intros [= <- <-]; split; reflexivity].
  destruct (get_url w) as [[]|]; [|intros [= <- <-]; split; reflexivity].
  destruct (maximize_window w) as [[]|]; [|intros [= <- <-]; split; reflexivity].
  discriminate.
Qed.

(** The loop sees of the world the visits only. *)
Lemma loop_of_visits (w w' : World) (fuel : nat) :
  (forall n, visit w n = visit w' n) ->
  forall n g, pagination_loop w fuel n g = pagination_loop w' fuel n g.
Proof.
  intros Hv. induction fuel as [|fuel IH]; intros n g; [reflexivity|].
  cbn [pagination_loop]. rewrite (Hv n).
  cbv beta iota delta [bind].
  destruct (scrape_data_from_page (visit w' n) g) as [[[[]|e|] g1] t1];
    [|reflexivity|reflexivity].
  destruct (try_except _ TimeoutException _ g1) as [[[again|e|] g2] t2];
    [|reflexivity|reflexivity].
  destruct again; [rewrite IH|]; reflexivity.
Qed.

(** The loop over [m] pages that turn over and a page the driver fails
    to hand over. *)
Lemma loop_unloadable (w : World) (m : nat) :
  forall (k fuel : nat) (g : globals) (e : exn),
    m < fuel ->
    (forall i, k <= i < k + m -> turns_over (visit w i)) ->
    page_source (visit w (k + m)) = Throws e ->
    pagination_loop w fuel k g =
    (Raise e, mk_globals (all_data g ++ records_of_pages w k m),
     events_of_pages w k (S m)).
Proof.
  induction m as [|m IH]; intros k fuel g e Hfuel Hturn Hsrc.
  - destruct fuel as [|fuel]; [lia|]. rewrite Nat.add_0_r in Hsrc.
    cbn [pagination_loop]. unfold bind at 1.
    rewrite (scrape_data_from_page_fails _ _ _ Hsrc).
    unfold records_of_pages, events_of_pages, visit_events. cbn [seq flat_map].
    rewrite Hsrc, !app_nil_r. destruct g. reflexivity.
  - destruct fuel as [|fuel]; [lia|].
    destruct (Hturn k ltac:(lia)) as [(src0 & Hsrc0 & Hacc0) Hnext0].
    rewrite (loop_turns_over w _ _ _ _ Hsrc0 Hacc0 Hnext0).
    rewrite (IH (S k) fuel _ e).
    + unfold records_of_pages, events_of_pages.
      change (seq k (S m)) with (k :: seq (S k) m).
      change (seq k (S (S m))) with (k :: seq (S k) (S m)).
      cbn [flat_map all_data].
      replace (page_records (visit w k)) with (kept (containers src0))
        by (unfold page_records; rewrite Hsrc0; reflexivity).
      rewrite <- !app_assoc. reflexivity.
    + lia.
    + intros i Hi. apply Hturn. lia.
    + rewrite <- Hsrc. f_equal. f_equal. lia.
Qed.

(** The loop on pages that turn over, then a page the parser or the
    container query rejects. *)
Lemma loop_rejected (w : World) (m : nat) :
  forall (k fuel : nat) (g : globals) (src : string) (e : exn),
    m < fuel ->
    (forall i, k <= i < k + m -> turns_over (visit w i)) ->
    page_source (visit w (k + m)) = Returns src ->
    selected src = Throws e ->
    pagination_loop w fuel k g =
    (Raise e, mk_globals (all_data g ++ records_of_pages w k m),
     events_of_pages w k (S m)).
Proof.
  induction m as [|m IH]; intros k fuel g src e Hfuel Hturn Hsrc Hrej.
  - destruct fuel as [|fuel]; [lia|]. rewrite Nat.add_0_r in Hsrc.
    cbn [pagination_loop]. unfold bind at 1.
    rewrite (scrape_data_from_page_rejected _ _ _ _ Hsrc Hrej).
    unfold records_of_pages, events_of_pages, visit_events. cbn [seq flat_map].
    rewrite Hsrc, Hrej, !app_nil_r. destruct g. reflexivity.
  - destruct fuel as [|fuel]; [lia|].
    destruct (Hturn k ltac:(lia)) as [(src0 & Hsrc0 & Hacc0) Hnext0].
    rewrite (loop_turns_over w _ _ _ _ Hsrc0 Hacc0 Hnext0).
    rewrite (IH (S k) fuel _ src e).
    + unfold records_of_pages, events_of_pages.
      change (seq k (S m)) with (k :: seq (S k) m).
      change (seq k (S (S m))) with (k :: seq (S k) (S m)).
      cbn [flat_map all_data].
      replace (page_records (visit w k)) with (kept (containers src0))
        by (unfold page_records; rewrite Hsrc0; reflexivity).
      rewrite <- !app_assoc. reflexivity.
    + lia.
    + intros i Hi. apply Hturn. lia.
    + rewrite <- Hsrc. f_equal. f_equal. lia.
    + exact Hrej.
Qed.

(** The loop on a site whose every page turns over. *)
Lemma loop_goes_on (w : World) (fuel : nat) :
  (forall i, turns_over (visit w i)) ->
  forall k g,
    pagination_loop w fuel k g =
    (OutOfFuel, mk_globals (all_data g ++ records_of_pages w k fuel),
     events_of_pages w k fuel).
Proof.
  intros Hturn. induction fuel as [|fuel IH]; intros k g.
  - cbn. rewrite app_nil_r. destruct g. reflexivity.
  - destruct (Hturn k) as [(src & Hsrc & Hacc) Hnext].
    rewrite (loop_turns_over w _ _ _ _ Hsrc Hacc Hnext), IH.
    unfold records_of_pages, events_of_pages.
    change (seq k (S fuel)) with (k :: seq (S k) fuel).
    cbn [flat_map all_data].
    replace (page_records (visit w k)) with (kept (containers src))
      by (unfold page_records; rewrite Hsrc; reflexivity).
    rewrite <- !app_assoc. reflexivity.
Qed.

(** Whatever holds of the records of every page holds of all the loop
    adds, and the loop only adds. *)
Lemma loop_adds (w : World) (P : dict -> Prop) (fuel : nat) :
  (forall listings, Forall P (kept listings)) ->
  forall n g,
    exists added,
      all_data (snd (fst (pagination_loop w fuel n g))) = all_data g ++ added
      /\ Forall P added.
Proof.
  intros HP. induction fuel as [|fuel IH]; intros n g.
  - exists []. split; [cbn; rewrite app_nil_r; reflexivity|constructor].
  - destruct (page_source (visit w n)) as [src|e] eqn:Hsrc.
    + destruct (selected src) as [listings|e] eqn:Hsel.
      * assert (Hacc : accepted src) by (exists listings; exact Hsel).
        destruct (pagination_outcome (visit w n)) as [[]|e] eqn:Hnext.
        -- rewrite (loop_turns_over w _ _ _ _ Hsrc Hacc Hnext).
           destruct (IH (S n) (mk_globals (all_data g ++ kept (containers src))))
             as (added & Hadded & HPadded).
           destruct (pagination_loop w fuel (S n) _) as [[r g'] evs].
           cbn [fst snd all_data] in *.
           exists (kept (containers src) ++ added).
           split; [rewrite Hadded, app_assoc; reflexivity|].
           apply Forall_app. split; [apply HP|exact HPadded].
        -- rewrite (loop_stops w _ _ _ _ _ Hsrc Hacc Hnext). cbn [fst snd all_data].
           exists (kept (containers src)). split; [reflexivity|apply HP].
      * cbn [pagination_loop]. unfold bind at 1.
        rewrite (scrape_data_from_page_rejected _ _ _ _ Hsrc Hsel). cbn [fst snd].
        exists []. split; [rewrite app_nil_r; reflexivity|constructor].
    + cbn [pagination_loop]. unfold bind at 1.
      rewrite (scrape_data_from_page_fails _ _ _ Hsrc). cbn [fst snd].
      exists []. split; [rewrite app_nil_r; reflexivity|constructor].
Qed.

End ScriptExtras.

Section ScriptProperties.

Context {bs : BeautifulSoup}.

(** X4. The cookie banner never stops the script and never touches the
    globals: if the wait for the accept button throws, the button is
    not clicked and the exception is reported on the console; if the
    click throws, it is reported likewise; otherwise the script pauses
    two seconds. *)
Theorem cookie_banner_never_stops (w : World) (g : globals) :
  exists evs,
    accept_cookies w g = (Ok tt, g, evs)
    /\ evs
       = Driver (UntilClickable "onetrust-accept-btn-handler" 10)
         :: match cookie_clickable w with
            | Throws e =>
                [Print ("No cookie banner found or failed to click: " ++ exn_msg e)]
            | Returns _ =>
                Driver Click
                :: match cookie_click w with
                   | Throws e =>
                       [Print ("No cookie banner found or failed to click: "
                               ++ exn_msg e)]
                   | Returns _ => [Sleep 2]
                   end
            end.
Proof.
  eexists. split; [apply accept_cookies_run|].
  cbv beta iota zeta delta
    [accept_cookies try_except call bind emit ret raise print sleep snd].
  destruct (cookie_clickable w) as [?|e].
  - destruct (cookie_click w) as [?|e]; [reflexivity|].
    rewrite every_exn_is_Exception. reflexivity.
  - rewrite every_exn_is_Exception. reflexivity.
Qed.

(** X5. What happens at the cookie banner changes nothing in how the
    run ends, in the records it accumulates or in the file it writes. *)
Theorem cookies_do_not_matter (w w' : World) (fuel : nat) :
  same_but_cookies w w' ->
  fst (run w fuel) = fst (run w' fuel)
  /\ filter is_to_csv (snd (run w fuel)) = filter is_to_csv (snd (run w' fuel)).
Proof.
  intros (Hc & Hg & Hm & Hv & Hq & Hw).
  destruct (start_failure w) as [[e evs]|] eqn:Hstart.
  - assert (Hstart' : start_failure w' = Some (e, evs))
      by (rewrite <- Hstart; unfold start_failure; rewrite Hc, Hg, Hm; reflexivity).
    rewrite (proj1 (run_not_started w fuel e evs Hstart)).
    rewrite (proj1 (run_not_started w' fuel e evs Hstart')). split; reflexivity.
  - assert (Hstart' : start_failure w' = None)
      by (rewrite <- Hstart; unfold start_failure; rewrite Hc, Hg, Hm; reflexivity).
    rewrite (run_after_start w fuel (start_failure_none w Hstart)).
    rewrite (run_after_start w' fuel (start_failure_none w' Hstart')).
    rewrite (loop_of_visits w w' fuel Hv), Hq, Hw.
    pose proof (loop_scraping w' fuel 0 (mk_globals [])) as Hloop.
    destruct (pagination_loop w' fuel 0 _) as [[r g] evs]. cbn [snd] in Hloop.
    assert (Hsame : forall tail,
               filter is_to_csv (boot_events w ++ evs ++ tail)
               = filter is_to_csv (boot_events w' ++ evs ++ tail)).
    { intros tail. rewrite !filter_app.
      rewrite (scraping_no_file _ (boot_events_scraping w)).
      rewrite (scraping_no_file _ (boot_events_scraping w')). reflexivity. }
    destruct r as [[]|e|].
    + destruct (quit w') as [[]|e]; [|split; [reflexivity|apply Hsame]].
      destruct (write_file w') as [[]|e]; (split; [reflexivity|apply Hsame]).
    + split; [reflexivity|]. rewrite <- (app_nil_r evs). apply Hsame.
    + split; [reflexivity|]. rewrite <- (app_nil_r evs). apply Hsame.
Qed.

(** X6. The page source is read outside the [try] of the loop: if the
    driver fails to hand over the page [n], after [n] pages that turned
    over, the run ends with that exception, even a TimeoutException;
    the records of the pages before stay in the globals, the session is
    not closed and no file is written. *)
Theorem page_load_failure_ends_run (w : World) (n fuel : nat) (e : exn) :
  starts w ->
  (forall i, i < n -> turns_over (visit w i)) ->
  page_source (visit w n) = Throws e ->
  n < fuel ->
  exists evs,
    run w fuel = (Raise e, mk_globals (records_of_pages w 0 n), evs)
    /\ forallb is_scraping evs = true.
Proof.
  intros Hstart Hturn Hsrc Hfuel.
  pose proof (loop_scraping w fuel 0 (mk_globals [])) as Hquiet.
  rewrite (run_after_start w fuel Hstart).
  rewrite (loop_unloadable w n 0 fuel (mk_globals []) e Hfuel) in *;
    try assumption; try (intros i Hi; apply Hturn; lia).
  cbn [snd all_data app] in *.
  eexists. split; [reflexivity|].
  rewrite forallb_app, boot_events_scraping. exact Hquiet.
Qed.

(** X7. In every run, however it ends, the trace is a stretch of events
    that neither close the session nor write the file, and nothing more
    unless the start and the loop returned; then follow the closing of
    the session, the writing of the accumulated records only if the
    closing returned, and the final line only if the writing returned,
    and the run ends as the closing and the writing did. So the file is
    never written before the session is closed, nor twice, nor at all
    when the closing throws. *)
Theorem write_only_after_close (w : World) (fuel : nat) :
  (exists scraping,
      forallb is_scraping scraping = true
      /\ match start_failure w, pagination_loop w fuel 0 (mk_globals []) with
         | None, (Ok _, g, _) =>
             run w fuel
             = (closing_result w, g, scraping ++ closing_trace w (all_data g))
         | _, _ =>
             snd (run w fuel) = scraping /\ fst (fst (run w fuel)) <> Ok tt
         end)
  /\ (forall e, quit w = Throws e -> count is_to_csv (snd (run w fuel)) = 0)
  /\ count is_to_csv (snd (run w fuel)) <= count is_quit (snd (run w fuel))
  /\ count is_quit (snd (run w fuel)) <= 1.
Proof.
  destruct (start_failure w) as [[e0 evs0]|] eqn:Hstart.
  - destruct (run_not_started w fuel e0 evs0 Hstart) as [Hrun Hquiet].
    rewrite Hrun. cbn [fst snd].
    destruct (scraping_counts _ Hquiet) as [Hq Hc]. rewrite Hq, Hc.
    split; [|split; [intros; reflexivity|split; lia]].
    exists evs0. split; [exact Hquiet|]. split; [reflexivity|discriminate].
  - rewrite (run_after_start w fuel (start_failure_none w Hstart)).
    pose proof (loop_scraping w fuel 0 (mk_globals [])) as Hloop.
    destruct (pagination_loop w fuel 0 _) as [[r g] evs]. cbn [snd] in Hloop.
    assert (Hquiet : forallb is_scraping (boot_events w ++ evs) = true)
      by (rewrite forallb_app, boot_events_scraping; exact Hloop).
    destruct (scraping_counts _ Hquiet) as [Hq Hc].
    assert (Hcount : forall p tail,
               count p (boot_events w ++ evs ++ tail)
               = count p (boot_events w ++ evs) + count p tail)
      by (intros p tail; rewrite app_assoc; apply count_app).
    unfold closing_result, closing_trace, closing_events.
    destruct r as [[]|e|].
    + destruct (quit w) as [[]|e] eqn:Hquit.
      * destruct (write_file w) as [[]|e]; cbn [fst snd]; rewrite !Hcount, Hq, Hc;
          (split; [|split; [intros e' [=]|split; cbn; lia]]);
          exists (boot_events w ++ evs); (split; [exact Hquiet|]);
          rewrite <- app_assoc; reflexivity.
      * cbn [fst snd]. rewrite !Hcount, Hq, Hc.
        split; [|split; [intros; reflexivity|split; cbn; lia]].
        exists (boot_events w ++ evs). split; [exact Hquiet|].
        rewrite <- app_assoc. reflexivity.
    + cbn [fst snd]. rewrite Hq, Hc.
      split; [|split; [intros; reflexivity|split; lia]].
      exists (boot_events w ++ evs). split; [exact Hquiet|].
      split; [reflexivity|discriminate].
    + cbn [fst snd]. rewrite Hq, Hc.
      split; [|split; [intros; reflexivity|split; lia]].
      exists (boot_events w ++ evs). split; [exact Hquiet|].
      split; [reflexivity|discriminate].
Qed.

(** X8. The loop has no bound on the pages: on a site whose every page
    opens a next one, after any number of pages the loop is still
    running, having read each of them once and accumulated the records
    of all of them. *)
Theorem loop_has_no_bound (w : World) (pages : nat) (g : globals) :
  (forall i, turns_over (visit w i)) ->
  exists evs,
    pagination_loop w pages 0 g
    = (OutOfFuel, mk_globals (all_data g ++ records_of_pages w 0 pages), evs)
    /\ count is_page_source evs = pages
    /\ count is_click evs = pages.
Proof.
  intros Hturn. exists (events_of_pages w 0 pages).
  split; [apply (loop_goes_on w pages Hturn)|]. split.
  - apply count_events_of_pages. intros i _. apply page_source_read_once.
  - apply count_events_of_pages. intros i _. apply turns_over_clicked, Hturn.
Qed.

(** X9. The loop only appends to the accumulator: whatever the browser
    answers and however the loop ends, the records accumulated before
    stay in front, unchanged, and every record added has the four keys
    and values free of white space at both ends. *)
Theorem accumulator_only_grows (w : World) (fuel n : nat) (g : globals) :
  exists added,
    all_data (snd (fst (pagination_loop w fuel n g))) = all_data g ++ added
    /\ Forall (fun d => keys d = four_keys
                        /\ forall f, exists v, dict_get d (key f) = Some v /\ trimmed v)
              added.
Proof. apply loop_adds. apply kept_trimmed. Qed.

(** X10. If the click on the next-page control goes through but the
    wait for the listings of the new page runs out, the loop ends as on
    a last page: the page the click opened is never read. With [n]
    pages turned over before, the control was clicked [n + 1] times and
    [n + 1] pages were read, the first included. *)
Theorem timeout_after_click_skips_page (w : World) (n fuel : nat) (e : exn) (g : globals) :
  (forall i, i < n -> turns_over (visit w i)) ->
  loads (visit w n) ->
  scroll (visit w n) = Returns tt ->
  next_clickable (visit w n) = Returns tt ->
  next_click (visit w n) = Returns tt ->
  listings_present (visit w n) = Throws e ->
  isinstance e TimeoutException = true ->
  n < fuel ->
  exists evs,
    pagination_loop w fuel 0 g
    = (Ok tt, mk_globals (all_data g ++ records_of_pages w 0 (S n)),
       evs ++ [Print "Reached the last page."])
    /\ count is_click evs = S n
    /\ count is_page_source evs = S n.
Proof.
  intros Hturn (src & Hsrc & Hacc) Hscroll Hwait Hclick Hslow He Hfuel.
  assert (Hout : pagination_outcome (visit w n) = Throws e)
    by (unfold pagination_outcome; rewrite Hscroll, Hwait, Hclick; exact Hslow).
  exists (events_of_pages w 0 (S n)). split; [|split].
  - rewrite (loop_run w n 0 fuel g e Hfuel).
    + rewrite He. reflexivity.
    + intros i Hi. apply Hturn. lia.
    + exists src. split; [exact Hsrc|exact Hacc].
    + exact Hout.
  - apply count_events_of_pages. intros i Hi.
    destruct (Nat.eq_dec i n) as [->|Hne].
    + exact (clicked_once _ src Hsrc Hacc Hscroll Hwait).
    + apply turns_over_clicked, Hturn. lia.
  - apply count_events_of_pages. intros i _. apply page_source_read_once.
Qed.

(** X13. The parser is called outside every [try]: if it rejects the
    markup of the page [n], after [n] pages that turned over, the run
    ends with the parser's exception right after the page source was
    read, without a line about listings found; the records of the pages
    before stay in the globals, the session is not closed and no file
    is written. *)
Theorem rejected_page_ends_run (w : World) (n fuel : nat) (src : string) (e : exn) :
  starts w ->
  (forall i, i < n -> turns_over (visit w i)) ->
  page_source (visit w n) = Returns src ->
  html_parser src = Throws e ->
  n < fuel ->
  exists evs,
    run w fuel
    = (Raise e, mk_globals (records_of_pages w 0 n), evs ++ [Driver PageSource])
    /\ forallb is_scraping evs = true.
Proof.
  intros Hstart Hturn Hsrc Hparse Hfuel.
  assert (Hrej : selected src = Throws e)
    by (unfold selected; rewrite Hparse; reflexivity).
  pose proof (loop_scraping w fuel 0 (mk_globals [])) as Hquiet.
  rewrite (run_after_start w fuel Hstart).
  rewrite (loop_rejected w n 0 fuel (mk_globals []) src e Hfuel) in *;
    try assumption; try (intros i Hi; apply Hturn; lia).
  cbn [snd all_data app] in *.
  replace (S n) with (n + 1) in * by lia.
  unfold events_of_pages in *. rewrite seq_app, flat_map_app in *.
  cbn [seq flat_map Nat.add] in *. rewrite app_nil_r in *.
  unfold visit_events at 2. unfold visit_events in Hquiet at 2.
  rewrite Hsrc, Hrej in *.
  exists (boot_events w ++ flat_map (fun i => visit_events (visit w i)) (seq 0 n)).
  split; [rewrite <- app_assoc; reflexivity|].
  rewrite forallb_app in Hquiet. destruct (andb_prop _ _ Hquiet) as [Hq _].
  rewrite forallb_app, boot_events_scraping. exact Hq.
Qed.

End ScriptProperties.

Section ScrapeProperties.

Context {bs : BeautifulSoup}.

(** X12. Scraping a page appends to the accumulator the records the
    extractor returns for its source, and scraping two pages in a row
    appends the records of the first, then those of the second; nothing
    is compared or dropped, so a page served twice gives its records
    twice. *)
Theorem scraping_appends_in_order (v1 v2 : Visit) (src1 src2 : string) (g : globals) :
  page_source v1 = Returns src1 ->
  accepted src1 ->
  page_source v2 = Returns src2 ->
  accepted src2 ->
  exists evs,
    (scrape_data_from_page v1 ;; scrape_data_from_page v2) g
    = (Ok tt, mk_globals (all_data g ++ extracted src1 ++ extracted src2), evs).
Proof.
  intros H1 A1 H2 A2. unfold bind.
  rewrite (scrape_data_from_page_run v1 g src1 H1 A1).
  rewrite (scrape_data_from_page_run v2 _ src2 H2 A2).
  rewrite !extracted_is_kept. cbn [all_data]. rewrite <- app_assoc.
  eexists. reflexivity.
Qed.

End ScrapeProperties.

(** X12, on the last result page served twice. *)
Lemma scraping_appends_in_order_witness :
  page_source (ending page_two) = Returns page_two
  /\ extracted (bs := Dom.soup true) page_two = page_two_records
  /\ exists evs,
      (scrape_data_from_page (bs := Dom.soup true) (ending page_two) ;;
       scrape_data_from_page (bs := Dom.soup true) (ending page_two))
        (mk_globals page_one_records)
      = (Ok tt,
         mk_globals (page_one_records
                     ++ extracted (bs := Dom.soup true) page_two
                     ++ extracted (bs := Dom.soup true) page_two),
         evs).
Proof.
  assert (Hsrc : page_source (ending page_two) = Returns page_two) by reflexivity.
  assert (Hacc : accepted (bs := Dom.soup true) page_two)
    by (exists (containers (bs := Dom.soup true) page_two); vm_compute; reflexivity).
  split; [exact Hsrc|]. split; [vm_compute; reflexivity|].
  exact (scraping_appends_in_order (bs := Dom.soup true) _ _ _ _
           (mk_globals page_one_records) Hsrc Hacc Hsrc Hacc).
Defined.

(** X5, on the two result pages, without a cookie banner and with one
    that is accepted. *)
Lemma cookies_do_not_matter_witness :
  same_but_cookies two_pages (with_banner (visit two_pages))
  /\ fst (run (bs := Dom.soup true) two_pages 2)
     = fst (run (bs := Dom.soup true) (with_banner (visit two_pages)) 2)
  /\ filter is_to_csv (snd (run (bs := Dom.soup true) two_pages 2))
     = filter is_to_csv
         (snd (run (bs := Dom.soup true) (with_banner (visit two_pages)) 2)).
Proof.
  assert (Hsame : same_but_cookies two_pages (with_banner (visit two_pages)))
    by (repeat split).
  split; [exact Hsame|].
  exact (cookies_do_not_matter (bs := Dom.soup true) _ _ 2 Hsame).
Defined.

(** X6, on a site whose second page the driver cannot hand over in
    time: the run ends with the TimeoutException, the records of the
    first page in the globals. *)
Lemma page_load_failure_ends_run_witness :
  page_source (visit second_page_lost 1) = Throws timed_out
  /\ isinstance timed_out TimeoutException = true
  /\ records_of_pages (bs := Dom.soup true) second_page_lost 0 1 = page_one_records
  /\ exists evs,
      run (bs := Dom.soup true) second_page_lost 2
      = (Raise timed_out,
         mk_globals (records_of_pages (bs := Dom.soup true) second_page_lost 0 1), evs)
      /\ forallb is_scraping evs = true.
Proof.
  assert (Hstart : starts second_page_lost) by (repeat split).
  assert (Hturn : forall i, i < 1 ->
                    turns_over (bs := Dom.soup true) (visit second_page_lost i)).
  { intros i Hi. assert (i = 0) as -> by lia.
    split; [page_loads page_one|reflexivity]. }
  assert (Hsrc : page_source (visit second_page_lost 1) = Throws timed_out)
    by reflexivity.
  assert (Hfuel : 1 < 2) by lia.
  split; [exact Hsrc|]. split; [reflexivity|]. split; [vm_compute; reflexivity|].
  exact (page_load_failure_ends_run (bs := Dom.soup true) second_page_lost 1 2 timed_out
           Hstart Hturn Hsrc Hfuel).
Defined.

(** X8, on a site whose every page has a next page, after three pages. *)
Lemma loop_has_no_bound_witness :
  (forall i, turns_over (bs := Dom.soup true) (visit endless_site i))
  /\ exists evs,
      pagination_loop (bs := Dom.soup true) endless_site 3 0 (mk_globals [])
      = (OutOfFuel,
         mk_globals ([] ++ records_of_pages (bs := Dom.soup true) endless_site 0 3), evs)
      /\ count is_page_source evs = 3
      /\ count is_click evs = 3.
Proof.
  assert (Hturn : forall i, turns_over (bs := Dom.soup true) (visit endless_site i))
    by (intros i; split; [page_loads page_two|reflexivity]).
  split; [exact Hturn|].
  exact (loop_has_no_bound (bs := Dom.soup true) endless_site 3 (mk_globals []) Hturn).
Defined.

(** X10, on a site whose second page is slow to show its listings. *)
Lemma timeout_after_click_skips_page_witness :
  listings_present (visit slow_site 0) = Throws timed_out
  /\ exists evs,
      pagination_loop (bs := Dom.soup true) slow_site 1 0 (mk_globals [])
      = (Ok tt,
         mk_globals ([] ++ records_of_pages (bs := Dom.soup true) slow_site 0 1),
         evs ++ [Print "Reached the last page."])
      /\ count is_click evs = 1
      /\ count is_page_source evs = 1.
Proof.
  assert (Hturn : forall i, i < 0 ->
                    turns_over (bs := Dom.soup true) (visit slow_site i))
    by (intros i Hi; lia).
  assert (Hsrc : loads (bs := Dom.soup true) (visit slow_site 0))
    by (page_loads page_one).
  assert (Hslow : listings_present (visit slow_site 0) = Throws timed_out)
    by reflexivity.
  assert (Hfuel : 0 < 1) by lia.
  split; [exact Hslow|].
  exact (timeout_after_click_skips_page (bs := Dom.soup true) slow_site 0 1 timed_out
           (mk_globals []) Hturn Hsrc eq_refl eq_refl eq_refl Hslow eq_refl Hfuel).
Defined.

(** X11, on the run over two result pages. *)
Lemma file_of_a_run_with_records_witness :
  run (bs := Dom.soup true) two_pages 2
  = (Ok tt, mk_globals (page_one_records ++ page_two_records),
     snd (run (bs := Dom.soup true) two_pages 2))
  /\ filter is_to_csv (snd (run (bs := Dom.soup true) two_pages 2))
     = [ToCsv "immoscout_basel_listings.csv"
          (String.concat ""
             (map Pandas.csv_row
                (["" ; "Rooms"; "Size"; "Price"; "Address"]
                 :: map (fun '(i, d) => PyStr.of_nat i :: map snd d)
                      (combine (seq 0 3) (page_one_records ++ page_two_records)))))].
Proof.
  assert (Hrun : run (bs := Dom.soup true) two_pages 2
                 = (Ok tt, mk_globals (page_one_records ++ page_two_records),
                    snd (run (bs := Dom.soup true) two_pages 2)))
    by (vm_compute; reflexivity).
  assert (Hsome : all_data (mk_globals (page_one_records ++ page_two_records)) <> [])
    by discriminate.
  split; [exact Hrun|].
  exact (file_of_a_run_with_records (bs := Dom.soup true) two_pages 2 _ _ Hrun Hsome).
Defined.

(** X3, at the middle container of [mixed_page] read by a selector
    engine without [:contains]: the second look-up of Rooms throws, so
    the container gives no record and the exception is that of Rooms. *)
Lemma record_iff_lookups_return_witness :
  fst (fst (listing_record (bs := Dom.soup false) (container mixed_page 1)
              (mk_globals [])))
  = Raise unsupported
  /\ exists f,
      field_alone (bs := Dom.soup false) f (container mixed_page 1) = Throws unsupported
      /\ forall f', position f' < position f ->
                    exists v,
                      field_alone (bs := Dom.soup false) f' (container mixed_page 1)
                      = Returns v.
Proof.
  assert (Hbad : fst (fst (listing_record (bs := Dom.soup false)
                             (container mixed_page 1) (mk_globals [])))
                 = Raise unsupported)
    by (vm_compute; reflexivity).
  split; [exact Hbad|].
  exact (proj2 (record_iff_lookups_return (bs := Dom.soup false)
                  (container mixed_page 1) (mk_globals [])) unsupported Hbad).
Defined.

(** X13, on [second_page_rejected]: the first page turns over, the
    markup of the second is rejected by the parser, and the run ends
    there with the records of the first page in the globals. *)
Lemma rejected_page_ends_run_witness :
  html_parser (BeautifulSoup := Dom.soup true) oops_page = Throws Dom.rejected_markup
  /\ records_of_pages (bs := Dom.soup true) second_page_rejected 0 1 = page_one_records
  /\ exists evs,
      run (bs := Dom.soup true) second_page_rejected 2
      = (Raise Dom.rejected_markup,
         mk_globals (records_of_pages (bs := Dom.soup true) second_page_rejected 0 1),
         evs ++ [Driver PageSource])
      /\ forallb is_scraping evs = true.
Proof.
  assert (Hstart : starts second_page_rejected) by (repeat split).
  assert (Hturn : forall i, i < 1 ->
                    turns_over (bs := Dom.soup true) (visit second_page_rejected i)).
  { intros i Hi. assert (i = 0) as -> by lia.
    split; [page_loads page_one|reflexivity]. }
  assert (Hsrc : page_source (visit second_page_rejected 1) = Returns oops_page)
    by reflexivity.
  assert (Hparse : html_parser (BeautifulSoup := Dom.soup true) oops_page
                   = Throws Dom.rejected_markup)
    by (vm_compute; reflexivity).
  assert (Hfuel : 1 < 2) by lia.
  split; [exact Hparse|]. split; [vm_compute; reflexivity|].
  exact (rejected_page_ends_run (bs := Dom.soup true) second_page_rejected 1 2
           oops_page Dom.rejected_markup Hstart Hturn Hsrc Hparse Hfuel).
Defined.

(** X7, on [closing_fails]: both pages are scraped, the closing of the
    session throws, and the run ends with that exception and without a
    file; and on [two_pages], where the closing returns, the file is
    written once. *)
Lemma write_only_after_close_witness :
  fst (fst (run (bs := Dom.soup true) closing_fails 2))
  = Raise (mk_exn WebDriverException "Message: invalid session id")
  /\ count is_quit (snd (run (bs := Dom.soup true) closing_fails 2)) = 1
  /\ count is_to_csv (snd (run (bs := Dom.soup true) closing_fails 2)) = 0
  /\ count is_to_csv (snd (run (bs := Dom.soup true) two_pages 2)) = 1.
Proof.
  split; [vm_compute; reflexivity|]. split; [vm_compute; reflexivity|].
  split; [|vm_compute; reflexivity].
  exact (proj1 (proj2 (write_only_after_close (bs := Dom.soup true) closing_fails 2))
           (mk_exn WebDriverException "Message: invalid session id") eq_refl).
Defined.
